(** * webrtc/audio/audio_send_stream.cc: the outbound audio stream

    A shallow embedding of [webrtc::internal::AudioSendStream] and of the
    helpers of its translation unit.  The stream talks to the voice engine
    only through interfaces (ChannelProxy, VoECodec, VoEBase,
    VoEVolumeControl, VoEAudioProcessing, BitrateAllocator, AudioState);
    they are type classes over an abstract engine state here, and every
    call made through them is recorded, in order, with its arguments and
    its answer.  The theorems hold for every implementation of the
    interfaces; [Mock] is one implementation, used to run the code on
    concrete inputs.

    RTC_DCHECK is compiled in or out with the build; the build is a
    parameter, and a run ends either by returning or, where the checks are
    in, at the first check that fails. *)

From Stdlib Require Import ZArith List String Ascii Bool Lia QArith.
From Stdlib Require Import DecimalString.
From ExtLib Require Import Structures.Monad.
Import ListNotations.
Import MonadNotation.
Local Open Scope Z_scope.
Local Open Scope monad_scope.

Set Implicit Arguments.

(** ** Machine integers *)

(** [static_cast<uint32_t>(x)], and the implicit conversion to [uint32_t]. *)
Definition to_uint32 (x : Z) : Z := x mod 2 ^ 32.

(** [static_cast<int32_t>(x)]; also the value of an [int] expression whose
    mathematical result is [x] (two's complement wrap-around). *)
Definition to_int32 (x : Z) : Z := (x + 2 ^ 31) mod 2 ^ 32 - 2 ^ 31.

(** [a * b] on [int]. *)
Definition int_mul (a b : Z) : Z := to_int32 (a * b).

(** [a / b] on [int]: C++ division truncates towards zero. *)
Definition int_div (a b : Z) : Z := Z.quot a b.

(** ** Strings *)

Definition tolower (c : ascii) : Z :=
  let n := Z.of_N (N_of_ascii c) in
  if (65 <=? n) && (n <=? 90) then n + 32 else n.

(** Modelled from the spec: [_stricmp] is declared outside src/ (it is the
    platform's case-insensitive string comparison); the spec calls the test
    built on it a case-insensitive comparison.  As the C library promises
    no more than the sign of the result, the result is -1, 0 or 1: the
    order of the two strings once ASCII upper-case letters are lowered. *)
Fixpoint _stricmp (s1 s2 : string) : Z :=
  match s1, s2 with
  | EmptyString, EmptyString => 0
  | EmptyString, String _ _ => -1
  | String _ _, EmptyString => 1
  | String c1 r1, String c2 r2 =>
      if tolower c1 <? tolower c2 then -1
      else if tolower c2 <? tolower c1 then 1
      else _stricmp r1 r2
  end.

(** The string with its ASCII upper-case letters lowered. *)
Fixpoint lowered (s : string) : list Z :=
  match s with
  | EmptyString => []
  | String c r => tolower c :: lowered r
  end.

(** ** Data *)

(** [webrtc::CodecInst], with the fields this file and the spec name. *)
Record CodecInst := {
  pltype : Z;
  plname : string;
  plfreq : Z;
  channels : Z;
  rate : Z
}.

(** [webrtc::CodecInst codec = {0}]. *)
Definition CodecInst_zero : CodecInst :=
  {| pltype := 0; plname := EmptyString; plfreq := 0; channels := 0; rate := 0 |}.

(** Modelled from the spec: [CodecInst::operator==] is declared with the
    struct, outside src/; the spec describes it as field-wise equality
    of the descriptor: clock rate, channel count, plname, payload type,
    bitrate. *)
Definition CodecInst_eq (a b : CodecInst) : bool :=
  (pltype a =? pltype b) && String.eqb (plname a) (plname b) &&
  (plfreq a =? plfreq b) && (channels a =? channels b) && (rate a =? rate b).

(** [a != b] is [!(a == b)]. *)
Definition CodecInst_neq (a b : CodecInst) : bool := negb (CodecInst_eq a b).

Inductive PayloadFrequencies := kFreq8000Hz | kFreq16000Hz | kFreq32000Hz.

(** Pointers to collaborators the stream only forwards. *)
Definition Handle := N.

Module RtpExtension.
Record t := { uri : string; id : Z }.
End RtpExtension.

Record NackConfig := { rtp_history_ms : Z }.

Record Rtp := {
  ssrc : Z;
  extensions : list RtpExtension.t;
  nack : NackConfig;
  c_name : string
}.

Record SendCodecSpec := {
  enable_codec_fec : bool;
  enable_opus_dtx : bool;
  opus_max_playback_rate : Z;
  cng_payload_type : Z;
  cng_plfreq : Z;
  codec_inst : CodecInst
}.

(** [webrtc::AudioSendStream::Config]. *)
Record Config := {
  rtp : Rtp;
  send_transport : Handle;
  voe_channel_id : Z;
  min_bitrate_kbps : Z;
  max_bitrate_kbps : Z;
  send_codec_spec : SendCodecSpec
}.

Record CongestionController := {
  pacer : Handle;
  GetTransportFeedbackObserver : Handle;
  packet_router : Handle
}.

(** [webrtc::CallStatistics], the fields GetStats reads. *)
Record CallStatistics := {
  bytesSent : Z;
  packetsSent : Z;
  rttMs : Z
}.

(** [webrtc::ReportBlock], the fields GetStats reads. *)
Record ReportBlock := {
  source_SSRC : Z;
  cumulative_num_packets_lost : Z;
  fraction_lost : Z;
  extended_highest_sequence_number : Z;
  interarrival_jitter : Z
}.

(** Modelled from the spec: [Q8ToFloat] lives in conversion.h, outside
    src/; the fractional loss is fixed-point in units of 1/256 and is
    converted to a normalized float.  Every 8-bit value over 256 is a
    binary fraction a float holds exactly, so a rational is the value. *)
Definition Q8ToFloat (v : Z) : Q := Qmake v 256.

(** Modelled from the spec: [AudioSendStream::Stats] and its default member
    initialisers are declared in the header, outside src/.  The three
    counters that GetStats assigns first hold a value; every other field
    is optional: [None] is the field as default construction left it
    (absent, unset), [Some v] is an assignment of [v]. *)
Record Stats := {
  local_ssrc : Z;
  bytes_sent : Z;
  packets_sent : Z;
  rtt_ms : option Z;
  aec_quality_min : option Q;
  codec_name : option string;
  packets_lost : option Z;
  stats_fraction_lost : option Q;
  ext_seqnum : option Z;
  jitter_ms : option Z;
  audio_level : option Z;
  echo_delay_median_ms : option Z;
  echo_delay_std_ms : option Z;
  echo_return_loss : option Z;
  echo_return_loss_enhancement : option Z;
  typing_noise_detected : option bool
}.

(** [webrtc::AudioSendStream::Stats stats;] *)
Definition Stats_default : Stats :=
  {| local_ssrc := 0; bytes_sent := 0; packets_sent := 0; rtt_ms := None;
     aec_quality_min := None; codec_name := None; packets_lost := None;
     stats_fraction_lost := None; ext_seqnum := None; jitter_ms := None;
     audio_level := None; echo_delay_median_ms := None;
     echo_delay_std_ms := None; echo_return_loss := None;
     echo_return_loss_enhancement := None; typing_noise_detected := None |}.

(** Assignments [stats.field = v]. *)
Definition set_local_ssrc (v : Z) (s : Stats) : Stats :=
  Build_Stats v (bytes_sent s) (packets_sent s) (rtt_ms s) (aec_quality_min
    s) (codec_name s) (packets_lost s) (stats_fraction_lost s) (ext_seqnum s)
    (jitter_ms s) (audio_level s) (echo_delay_median_ms s) (echo_delay_std_ms
    s) (echo_return_loss s) (echo_return_loss_enhancement s)
    (typing_noise_detected s).
Definition set_bytes_sent (v : Z) (s : Stats) : Stats :=
  Build_Stats (local_ssrc s) v (packets_sent s) (rtt_ms s) (aec_quality_min
    s) (codec_name s) (packets_lost s) (stats_fraction_lost s) (ext_seqnum s)
    (jitter_ms s) (audio_level s) (echo_delay_median_ms s) (echo_delay_std_ms
    s) (echo_return_loss s) (echo_return_loss_enhancement s)
    (typing_noise_detected s).
Definition set_packets_sent (v : Z) (s : Stats) : Stats :=
  Build_Stats (local_ssrc s) (bytes_sent s) v (rtt_ms s) (aec_quality_min s)
    (codec_name s) (packets_lost s) (stats_fraction_lost s) (ext_seqnum s)
    (jitter_ms s) (audio_level s) (echo_delay_median_ms s) (echo_delay_std_ms
    s) (echo_return_loss s) (echo_return_loss_enhancement s)
    (typing_noise_detected s).
Definition set_rtt_ms (v : Z) (s : Stats) : Stats :=
  Build_Stats (local_ssrc s) (bytes_sent s) (packets_sent s) (Some v)
    (aec_quality_min s) (codec_name s) (packets_lost s) (stats_fraction_lost
    s) (ext_seqnum s) (jitter_ms s) (audio_level s) (echo_delay_median_ms s)
    (echo_delay_std_ms s) (echo_return_loss s) (echo_return_loss_enhancement
    s) (typing_noise_detected s).
Definition set_aec_quality_min (v : Q) (s : Stats) : Stats :=
  Build_Stats (local_ssrc s) (bytes_sent s) (packets_sent s) (rtt_ms s) (Some
    v) (codec_name s) (packets_lost s) (stats_fraction_lost s) (ext_seqnum s)
    (jitter_ms s) (audio_level s) (echo_delay_median_ms s) (echo_delay_std_ms
    s) (echo_return_loss s) (echo_return_loss_enhancement s)
    (typing_noise_detected s).
Definition set_codec_name (v : string) (s : Stats) : Stats :=
  Build_Stats (local_ssrc s) (bytes_sent s) (packets_sent s) (rtt_ms s)
    (aec_quality_min s) (Some v) (packets_lost s) (stats_fraction_lost s)
    (ext_seqnum s) (jitter_ms s) (audio_level s) (echo_delay_median_ms s)
    (echo_delay_std_ms s) (echo_return_loss s) (echo_return_loss_enhancement
    s) (typing_noise_detected s).
Definition set_packets_lost (v : Z) (s : Stats) : Stats :=
  Build_Stats (local_ssrc s) (bytes_sent s) (packets_sent s) (rtt_ms s)
    (aec_quality_min s) (codec_name s) (Some v) (stats_fraction_lost s)
    (ext_seqnum s) (jitter_ms s) (audio_level s) (echo_delay_median_ms s)
    (echo_delay_std_ms s) (echo_return_loss s) (echo_return_loss_enhancement
    s) (typing_noise_detected s).
Definition set_fraction_lost (v : Q) (s : Stats) : Stats :=
  Build_Stats (local_ssrc s) (bytes_sent s) (packets_sent s) (rtt_ms s)
    (aec_quality_min s) (codec_name s) (packets_lost s) (Some v) (ext_seqnum
    s) (jitter_ms s) (audio_level s) (echo_delay_median_ms s)
    (echo_delay_std_ms s) (echo_return_loss s) (echo_return_loss_enhancement
    s) (typing_noise_detected s).
Definition set_ext_seqnum (v : Z) (s : Stats) : Stats :=
  Build_Stats (local_ssrc s) (bytes_sent s) (packets_sent s) (rtt_ms s)
    (aec_quality_min s) (codec_name s) (packets_lost s) (stats_fraction_lost
    s) (Some v) (jitter_ms s) (audio_level s) (echo_delay_median_ms s)
    (echo_delay_std_ms s) (echo_return_loss s) (echo_return_loss_enhancement
    s) (typing_noise_detected s).
Definition set_jitter_ms (v : Z) (s : Stats) : Stats :=
  Build_Stats (local_ssrc s) (bytes_sent s) (packets_sent s) (rtt_ms s)
    (aec_quality_min s) (codec_name s) (packets_lost s) (stats_fraction_lost
    s) (ext_seqnum s) (Some v) (audio_level s) (echo_delay_median_ms s)
    (echo_delay_std_ms s) (echo_return_loss s) (echo_return_loss_enhancement
    s) (typing_noise_detected s).
Definition set_audio_level (v : Z) (s : Stats) : Stats :=
  Build_Stats (local_ssrc s) (bytes_sent s) (packets_sent s) (rtt_ms s)
    (aec_quality_min s) (codec_name s) (packets_lost s) (stats_fraction_lost
    s) (ext_seqnum s) (jitter_ms s) (Some v) (echo_delay_median_ms s)
    (echo_delay_std_ms s) (echo_return_loss s) (echo_return_loss_enhancement
    s) (typing_noise_detected s).
Definition set_echo_delay_median_ms (v : Z) (s : Stats) : Stats :=
  Build_Stats (local_ssrc s) (bytes_sent s) (packets_sent s) (rtt_ms s)
    (aec_quality_min s) (codec_name s) (packets_lost s) (stats_fraction_lost
    s) (ext_seqnum s) (jitter_ms s) (audio_level s) (Some v)
    (echo_delay_std_ms s) (echo_return_loss s) (echo_return_loss_enhancement
    s) (typing_noise_detected s).
Definition set_echo_delay_std_ms (v : Z) (s : Stats) : Stats :=
  Build_Stats (local_ssrc s) (bytes_sent s) (packets_sent s) (rtt_ms s)
    (aec_quality_min s) (codec_name s) (packets_lost s) (stats_fraction_lost
    s) (ext_seqnum s) (jitter_ms s) (audio_level s) (echo_delay_median_ms s)
    (Some v) (echo_return_loss s) (echo_return_loss_enhancement s)
    (typing_noise_detected s).
Definition set_echo_return_loss (v : Z) (s : Stats) : Stats :=
  Build_Stats (local_ssrc s) (bytes_sent s) (packets_sent s) (rtt_ms s)
    (aec_quality_min s) (codec_name s) (packets_lost s) (stats_fraction_lost
    s) (ext_seqnum s) (jitter_ms s) (audio_level s) (echo_delay_median_ms s)
    (echo_delay_std_ms s) (Some v) (echo_return_loss_enhancement s)
    (typing_noise_detected s).
Definition set_echo_return_loss_enhancement (v : Z) (s : Stats) : Stats :=
  Build_Stats (local_ssrc s) (bytes_sent s) (packets_sent s) (rtt_ms s)
    (aec_quality_min s) (codec_name s) (packets_lost s) (stats_fraction_lost
    s) (ext_seqnum s) (jitter_ms s) (audio_level s) (echo_delay_median_ms s)
    (echo_delay_std_ms s) (echo_return_loss s) (Some v)
    (typing_noise_detected s).
Definition set_typing_noise_detected (v : bool) (s : Stats) : Stats :=
  Build_Stats (local_ssrc s) (bytes_sent s) (packets_sent s) (rtt_ms s)
    (aec_quality_min s) (codec_name s) (packets_lost s) (stats_fraction_lost
    s) (ext_seqnum s) (jitter_ms s) (audio_level s) (echo_delay_median_ms s)
    (echo_delay_std_ms s) (echo_return_loss s) (echo_return_loss_enhancement
    s) (Some v).

(** The four fields of a snapshot that come from a remote report block. *)
Definition report_fields (stats : Stats)
  : option Z * option Q * option Z * option Z :=
  (packets_lost stats, stats_fraction_lost stats, ext_seqnum stats,
   jitter_ms stats).

(** ** The calls the stream makes

    One constructor for every method of a collaborator that the code
    calls, with the arguments passed and, last, what the call answered. *)
Inductive Event :=
  (* ChannelProxy *)
  | Call_SetRtcEventLog (event_log : Handle)
  | Call_RegisterSenderCongestionControlObjects (pacer tfo router : Handle)
  | Call_SetRTCPStatus (enable : bool)
  | Call_SetLocalSSRC (ssrc : Z)
  | Call_SetRTCP_CNAME (c_name : string)
  | Call_SetNACKStatus (enable : bool) (max_packets : Z)
  | Call_RegisterExternalTransport (transport : Handle)
  | Call_SetSendAbsoluteSenderTimeStatus (enable : bool) (id : Z)
  | Call_SetSendAudioLevelIndicationStatus (enable : bool) (id : Z)
  | Call_EnableSendTransportSequenceNumber (id : Z)
  | Call_GetRTCPStatistics (answer : CallStatistics)
  | Call_GetRemoteRTCPReportBlocks (answer : list ReportBlock)
  | Call_SetBitrate (bitrate_bps : Z)
  (* VoECodec *)
  | Call_GetSendCodec (channel : Z) (rc : Z) (codec : CodecInst)
  | Call_SetSendCodec (channel : Z) (codec : CodecInst) (rc : Z)
  | Call_SetVADStatus (channel : Z) (enable : bool) (rc : Z)
  | Call_SetFECStatus (channel : Z) (enable : bool) (rc : Z)
  | Call_SetOpusDtx (channel : Z) (enable : bool) (rc : Z)
  | Call_SetOpusMaxPlaybackRate (channel : Z) (frequency_hz : Z) (rc : Z)
  | Call_SetSendCNPayloadType (channel : Z) (type : Z)
      (frequency : PayloadFrequencies) (rc : Z)
  (* VoEBase *)
  | Call_StartSend (channel : Z) (rc : Z)
  | Call_StopSend (channel : Z) (rc : Z)
  | Call_LastError (answer : Z)
  (* VoEVolumeControl *)
  | Call_GetSpeechInputLevelFullRange (rc : Z) (level : Z)
  (* VoEAudioProcessing *)
  | Call_GetEcMetricsStatus (rc : Z) (enabled : bool)
  | Call_GetEcDelayMetrics (rc : Z) (median std : Z)
  | Call_GetEchoMetrics (rc : Z) (erl erle : Z)
  (* BitrateAllocator *)
  | Call_AddObserver (min_bitrate_bps max_bitrate_bps pad_up_bitrate_bps : Z)
      (enforce_min_bitrate : bool)
  | Call_RemoveObserver
  (* internal::AudioState *)
  | Call_typing_noise_detected (answer : bool).

(** ** The collaborators, as interfaces over the engine's state [W]

    A method takes its arguments and the state and gives its answer and the
    next state.  A reference parameter that the callee may write is passed
    in with the caller's initial value and comes back in the answer. *)

Class ChannelProxy (W : Type) := {
  SetRtcEventLog : Handle -> W -> W;
  RegisterSenderCongestionControlObjects : Handle -> Handle -> Handle -> W -> W;
  SetRTCPStatus : bool -> W -> W;
  SetLocalSSRC : Z -> W -> W;
  SetRTCP_CNAME : string -> W -> W;
  SetNACKStatus : bool -> Z -> W -> W;
  RegisterExternalTransport : Handle -> W -> W;
  SetSendAbsoluteSenderTimeStatus : bool -> Z -> W -> W;
  SetSendAudioLevelIndicationStatus : bool -> Z -> W -> W;
  EnableSendTransportSequenceNumber : Z -> W -> W;
  GetRTCPStatistics : W -> CallStatistics * W;
  GetRemoteRTCPReportBlocks : W -> list ReportBlock * W;
  SetBitrate : Z -> W -> W
}.

Class VoECodec (W : Type) := {
  GetSendCodec : Z -> CodecInst -> W -> (Z * CodecInst) * W;
  SetSendCodec : Z -> CodecInst -> W -> Z * W;
  SetVADStatus : Z -> bool -> W -> Z * W;
  SetFECStatus : Z -> bool -> W -> Z * W;
  SetOpusDtx : Z -> bool -> W -> Z * W;
  SetOpusMaxPlaybackRate : Z -> Z -> W -> Z * W;
  SetSendCNPayloadType : Z -> Z -> PayloadFrequencies -> W -> Z * W
}.

Class VoEBase (W : Type) := {
  StartSend : Z -> W -> Z * W;
  StopSend : Z -> W -> Z * W;
  LastError : W -> Z * W
}.

Class VoEVolumeControl (W : Type) := {
  GetSpeechInputLevelFullRange : Z -> W -> (Z * Z) * W
}.

Class VoEAudioProcessing (W : Type) := {
  GetEcMetricsStatus : bool -> W -> (Z * bool) * W;
  GetEcDelayMetrics : Z -> Z -> W -> (Z * (Z * Z)) * W;
  GetEchoMetrics : Z -> Z -> W -> (Z * (Z * Z)) * W
}.

Class BitrateAllocator (W : Type) := {
  AddObserver : Z -> Z -> Z -> bool -> W -> W;
  RemoveObserver : W -> W
}.

Class AudioState (W : Type) := {
  audio_state_typing_noise_detected : W -> bool * W
}.

(** ** Running code against the collaborators *)

(** What a run comes to: it returns [a], or a failed RTC_DCHECK ends the
    process; either way with the engine's state and the calls made. *)
Inductive Result (W A : Type) :=
  | Done (a : A) (w : W) (tr : list Event)
  | Fatal (w : W) (tr : list Event).
Arguments Fatal {W A} w tr.

Definition trace_of {W A} (r : Result W A) : list Event :=
  match r with Done _ _ tr => tr | Fatal _ tr => tr end.

Definition value_of {W A} (r : Result W A) : option A :=
  match r with Done a _ _ => Some a | Fatal _ _ => None end.

Definition state_of {W A} (r : Result W A) : W :=
  match r with Done _ w _ => w | Fatal w _ => w end.

Definition M (W A : Type) : Type := W -> Result W A.

Definition M_ret {W A} (a : A) : M W A := fun w => Done a w [].

Definition M_bind {W A B} (m : M W A) (k : A -> M W B) : M W B :=
  fun w =>
    match m w with
    | Done a w1 t1 =>
        match k a w1 with
        | Done b w2 t2 => Done b w2 (t1 ++ t2)
        | Fatal w2 t2 => Fatal w2 (t1 ++ t2)
        end
    | Fatal w1 t1 => Fatal w1 t1
    end.

#[global] Instance Monad_M {W} : Monad (M W) :=
  {| ret := @M_ret W; bind := @M_bind W |}.

(** A call that answers. *)
Definition call {W A} (method : W -> A * W) (ev : A -> Event) : M W A :=
  fun w => let (a, w') := method w in Done a w' [ev a].

(** A call of a [void] method. *)
Definition call_void {W} (method : W -> W) (ev : Event) : M W unit :=
  fun w => Done tt (method w) [ev].

(** A block of statements inside a function that returns [B]: [Some b] is
    [return b;], [None] is control reaching the end of the block. *)
Definition return_ {W B} (b : B) : M W (option B) := ret (Some b).
Definition fallthrough {W B} : M W (option B) := ret None.

(** [blk rest]: the rest of the function runs unless the block returned. *)
Definition and_then {W B} (blk : M W (option B)) (rest : M W B) : M W B :=
  r <- blk ;; match r with Some b => ret b | None => rest end.

(** The same inside an enclosing block. *)
Definition and_then_block {W B} (blk rest : M W (option B)) : M W (option B) :=
  r <- blk ;; match r with Some b => return_ b | None => rest end.

Notation "blk ;;; rest" := (and_then blk rest)
  (at level 62, right associativity) : monad_scope.

(** ** Reading a record of calls *)

(** The codecs handed to SetSendCodec, in order. *)
Definition set_codec_calls (tr : list Event) : list (Z * CodecInst) :=
  flat_map (fun e => match e with
                     | Call_SetSendCodec ch c _ => [(ch, c)]
                     | _ => []
                     end) tr.

(** What the first GetSendCodec answered: the result code and the codec. *)
Fixpoint send_codec_query (tr : list Event) : option (Z * CodecInst) :=
  match tr with
  | [] => None
  | Call_GetSendCodec _ rc c :: _ => Some (rc, c)
  | _ :: rest => send_codec_query rest
  end.

(** The VAD settings asked of the channel, in order. *)
Definition vad_requests (tr : list Event) : list bool :=
  flat_map (fun e => match e with
                     | Call_SetVADStatus _ enable _ => [enable]
                     | _ => []
                     end) tr.

(** The VAD setting the calls leave the channel with: the last one asked. *)
Definition vad_enabled (tr : list Event) : bool := last (vad_requests tr) false.

(** The comfort-noise registrations asked of the channel, with their
    result codes. *)
Definition cn_calls (tr : list Event) : list (Z * PayloadFrequencies * Z) :=
  flat_map (fun e => match e with
                     | Call_SetSendCNPayloadType _ type f rc => [(type, f, rc)]
                     | _ => []
                     end) tr.

(** The calls whose failure SetupSendCodec answers with [return false]:
    setting the codec, enabling FEC, the two Opus controls, enabling VAD. *)
Definition fatal_step_failed (e : Event) : bool :=
  match e with
  | Call_SetSendCodec _ _ rc => rc =? -1
  | Call_SetFECStatus _ true rc => rc =? -1
  | Call_SetOpusDtx _ _ rc => negb (rc =? 0)
  | Call_SetOpusMaxPlaybackRate _ _ rc => rc =? -1
  | Call_SetVADStatus _ true rc => rc =? -1
  | _ => false
  end.

(** The comfort-noise clock rates SetupSendCodec has a case for. *)
Definition cng_rate_supported (spec : SendCodecSpec) : bool :=
  (cng_payload_type spec =? -1) || (cng_plfreq spec =? 8000) ||
  (cng_plfreq spec =? 16000) || (cng_plfreq spec =? 32000).

Definition is_opus_call (e : Event) : bool :=
  match e with
  | Call_SetOpusDtx _ _ _ | Call_SetOpusMaxPlaybackRate _ _ _ => true
  | _ => false
  end.

(** The arguments of the SetNACKStatus calls, in order. *)
Definition nack_calls (tr : list Event) : list (bool * Z) :=
  flat_map (fun e => match e with
                     | Call_SetNACKStatus enable n => [(enable, n)]
                     | _ => []
                     end) tr.

(** The report blocks the channel handed out, if it was asked. *)
Fixpoint reported_blocks (tr : list Event) : option (list ReportBlock) :=
  match tr with
  | [] => None
  | Call_GetRemoteRTCPReportBlocks blocks :: _ => Some blocks
  | _ :: rest => reported_blocks rest
  end.

(** The RTCP statistics the channel handed out. *)
Fixpoint reported_call_stats (tr : list Event) : option CallStatistics :=
  match tr with
  | [] => None
  | Call_GetRTCPStatistics cs :: _ => Some cs
  | _ :: rest => reported_call_stats rest
  end.

(** ** More readings of a record of calls *)

(** The calls that go to VoECodec. *)
Definition is_codec_call (e : Event) : bool :=
  match e with
  | Call_GetSendCodec _ _ _ | Call_SetSendCodec _ _ _
  | Call_SetVADStatus _ _ _ | Call_SetFECStatus _ _ _
  | Call_SetOpusDtx _ _ _ | Call_SetOpusMaxPlaybackRate _ _ _
  | Call_SetSendCNPayloadType _ _ _ _ => true
  | _ => false
  end.


(** The FEC settings asked of the channel, in order. *)
Definition fec_requests (tr : list Event) : list bool :=
  flat_map (fun e => match e with
                     | Call_SetFECStatus _ enable _ => [enable]
                     | _ => []
                     end) tr.

(** The DTX flags handed to SetOpusDtx, in order. *)
Definition opus_dtx_calls (tr : list Event) : list bool :=
  flat_map (fun e => match e with
                     | Call_SetOpusDtx _ enable _ => [enable]
                     | _ => []
                     end) tr.

(** The rates handed to SetOpusMaxPlaybackRate, in order. *)
Definition playback_rate_calls (tr : list Event) : list Z :=
  flat_map (fun e => match e with
                     | Call_SetOpusMaxPlaybackRate _ rate _ => [rate]
                     | _ => []
                     end) tr.

(** The calls that only ask: none of them sets, registers, starts or stops
    anything. *)
Definition is_query (e : Event) : bool :=
  match e with
  | Call_GetRTCPStatistics _ | Call_GetRemoteRTCPReportBlocks _
  | Call_GetSendCodec _ _ _ | Call_GetSpeechInputLevelFullRange _ _
  | Call_GetEcMetricsStatus _ _ | Call_GetEcDelayMetrics _ _ _
  | Call_GetEchoMetrics _ _ _ | Call_typing_noise_detected _ => true
  | _ => false
  end.

(** The RTP header extensions the channel can send. *)
Inductive HeaderExtension :=
  | AbsoluteSenderTime | AudioLevelIndication | TransportSequenceNumber.

(** The header-extension calls made, in order: which extension, the enable
    flag passed and the id.  EnableSendTransportSequenceNumber has no flag:
    it enables. *)
Definition extension_calls (tr : list Event)
    : list (HeaderExtension * bool * Z) :=
  flat_map (fun e => match e with
                     | Call_SetSendAbsoluteSenderTimeStatus enable id =>
                         [(AbsoluteSenderTime, enable, id)]
                     | Call_SetSendAudioLevelIndicationStatus enable id =>
                         [(AudioLevelIndication, enable, id)]
                     | Call_EnableSendTransportSequenceNumber id =>
                         [(TransportSequenceNumber, true, id)]
                     | _ => []
                     end) tr.

(** The calls made after the first one that [p] picks out. *)
Fixpoint calls_after (p : Event -> bool) (tr : list Event) : list Event :=
  match tr with
  | [] => []
  | e :: rest => if p e then rest else calls_after p rest
  end.

Definition is_fec_enable (e : Event) : bool :=
  match e with
  | Call_SetFECStatus _ true _ => true
  | _ => false
  end.



(** The bitrates handed to SetBitrate, in order. *)
Definition bitrate_calls (tr : list Event) : list Z :=
  flat_map (fun e => match e with
                     | Call_SetBitrate bps => [bps]
                     | _ => []
                     end) tr.

(** The answers GetStats checks with RTC_DCHECK, failing: a send codec
    reported with payload type -1, and a result code other than 0 from the
    speech level or the echo metrics. *)
Definition stats_check_failed (e : Event) : bool :=
  match e with
  | Call_GetSendCodec _ rc codec => negb (rc =? -1) && (pltype codec =? -1)
  | Call_GetSpeechInputLevelFullRange rc _ => negb (0 =? rc)
  | Call_GetEcMetricsStatus rc _ => negb (0 =? rc)
  | Call_GetEcDelayMetrics rc _ _ => negb (0 =? rc)
  | Call_GetEchoMetrics rc _ _ => negb (0 =? rc)
  | _ => false
  end.

(** What the audio processing answered, if it was asked. *)
Fixpoint ec_metrics_status (tr : list Event) : option bool :=
  match tr with
  | [] => None
  | Call_GetEcMetricsStatus _ enabled :: _ => Some enabled
  | _ :: rest => ec_metrics_status rest
  end.

Fixpoint ec_delay_metrics (tr : list Event) : option (Z * Z) :=
  match tr with
  | [] => None
  | Call_GetEcDelayMetrics _ median std :: _ => Some (median, std)
  | _ :: rest => ec_delay_metrics rest
  end.

Fixpoint echo_metrics (tr : list Event) : option (Z * Z) :=
  match tr with
  | [] => None
  | Call_GetEchoMetrics _ erl erle :: _ => Some (erl, erle)
  | _ :: rest => echo_metrics rest
  end.

(** The speech level the volume control answered. *)
Fixpoint speech_level (tr : list Event) : option Z :=
  match tr with
  | [] => None
  | Call_GetSpeechInputLevelFullRange _ level :: _ => Some level
  | _ :: rest => speech_level rest
  end.

(** The typing-noise flag the audio state answered. *)
Fixpoint typing_noise_answer (tr : list Event) : option bool :=
  match tr with
  | [] => None
  | Call_typing_noise_detected answer :: _ => Some answer
  | _ :: rest => typing_noise_answer rest
  end.

(** ** Printing *)

(** [ss << n] for an integer: its decimal digits, with a sign when
    negative. *)
Definition show_int (n : Z) : string := NilZero.string_of_int (Z.to_int n).

(** ** A voice engine to run the code against

    One implementation of the interfaces: a channel that keeps its send
    codec, whether it is sending, its VAD flag, the allocator's record of
    the observer and the bitrate last set, and that answers the statistics
    queries from what it was built with.  As in the engine, the comfort
    noise payload type cannot be registered while the channel is sending,
    and the Opus controls need Opus to be the send codec.  It keeps no
    error codes: LastError answers -1. *)
Module Mock.

Record World := {
  send_codec : option CodecInst;
  sending : bool;
  vad : bool;
  observing : bool;
  bitrate : Z;
  call_statistics : CallStatistics;
  report_blocks : list ReportBlock
}.

Definition with_send_codec (c : CodecInst) (w : World) : World :=
  Build_World (Some c) (sending w) (vad w) (observing w) (bitrate w)
              (call_statistics w) (report_blocks w).
Definition with_sending (b : bool) (w : World) : World :=
  Build_World (send_codec w) b (vad w) (observing w) (bitrate w)
              (call_statistics w) (report_blocks w).
Definition with_vad (b : bool) (w : World) : World :=
  Build_World (send_codec w) (sending w) b (observing w) (bitrate w)
              (call_statistics w) (report_blocks w).
Definition with_observing (b : bool) (w : World) : World :=
  Build_World (send_codec w) (sending w) (vad w) b (bitrate w)
              (call_statistics w) (report_blocks w).
Definition with_bitrate (b : Z) (w : World) : World :=
  Build_World (send_codec w) (sending w) (vad w) (observing w) b
              (call_statistics w) (report_blocks w).

Definition opus_active (w : World) : bool :=
  match send_codec w with
  | Some c => _stricmp (plname c) "opus" =? 0
  | None => false
  end.

#[global] Instance channel_proxy : ChannelProxy World := {|
  SetRtcEventLog := fun _ w => w;
  RegisterSenderCongestionControlObjects := fun _ _ _ w => w;
  SetRTCPStatus := fun _ w => w;
  SetLocalSSRC := fun _ w => w;
  SetRTCP_CNAME := fun _ w => w;
  SetNACKStatus := fun _ _ w => w;
  RegisterExternalTransport := fun _ w => w;
  SetSendAbsoluteSenderTimeStatus := fun _ _ w => w;
  SetSendAudioLevelIndicationStatus := fun _ _ w => w;
  EnableSendTransportSequenceNumber := fun _ w => w;
  GetRTCPStatistics := fun w => (call_statistics w, w);
  GetRemoteRTCPReportBlocks := fun w => (report_blocks w, w);
  SetBitrate := with_bitrate
|}.

#[global] Instance voe_codec : VoECodec World := {|
  GetSendCodec := fun _ init w =>
    match send_codec w with
    | Some c => ((0, c), w)
    | None => ((-1, init), w)
    end;
  SetSendCodec := fun _ c w =>
    if pltype c <? 0 then (-1, w) else (0, with_send_codec c w);
  SetVADStatus := fun _ enable w => (0, with_vad enable w);
  SetFECStatus := fun _ _ w => (0, w);
  SetOpusDtx := fun _ _ w => if opus_active w then (0, w) else (-1, w);
  SetOpusMaxPlaybackRate := fun _ _ w =>
    if opus_active w then (0, w) else (-1, w);
  SetSendCNPayloadType := fun _ _ _ w =>
    if sending w then (-1, w) else (0, w)
|}.

#[global] Instance voe_base : VoEBase World := {|
  StartSend := fun _ w => (0, with_sending true w);
  StopSend := fun _ w => (0, with_sending false w);
  LastError := fun w => (-1, w)
|}.

#[global] Instance voe_volume : VoEVolumeControl World := {|
  GetSpeechInputLevelFullRange := fun _ w => ((0, 1234), w)
|}.

#[global] Instance voe_processing : VoEAudioProcessing World := {|
  GetEcMetricsStatus := fun _ w => ((0, false), w);
  GetEcDelayMetrics := fun median std w => ((0, (median, std)), w);
  GetEchoMetrics := fun erl erle w => ((0, (erl, erle)), w)
|}.

#[global] Instance allocator : BitrateAllocator World := {|
  AddObserver := fun _ _ _ _ w => with_observing true w;
  RemoveObserver := fun w => with_observing false w
|}.

#[global] Instance state : AudioState World := {|
  audio_state_typing_noise_detected := fun w => (false, w)
|}.

(** A channel that was just created. *)
Definition fresh : World :=
  {| send_codec := None; sending := false; vad := false; observing := false;
     bitrate := 0;
     call_statistics := {| bytesSent := 0; packetsSent := 0; rttMs := 0 |};
     report_blocks := [] |}.

End Mock.

(** ** The stream object *)

(** [webrtc::internal::AudioSendStream], the one member the code reads. *)
Record AudioSendStream := { config_ : Config }.

(** ** Inputs for runs on the mock engine *)

Module Runs.

(** iSAC at 16 kHz, one channel. *)
Definition isac : CodecInst :=
  {| pltype := 103; plname := "ISAC"; plfreq := 16000; channels := 1;
     rate := 32000 |}.

(** Opus as the engine lists it: 48 kHz, two channels. *)
Definition opus : CodecInst :=
  {| pltype := 111; plname := "OPUS"; plfreq := 48000; channels := 2;
     rate := 64000 |}.

Definition make_config (history_ms min_kbps max_kbps : Z)
    (spec : SendCodecSpec) : Config :=
  {| rtp := {| ssrc := 1234; extensions := [];
               nack := {| rtp_history_ms := history_ms |};
               c_name := "stream" |};
     send_transport := 7%N;
     voe_channel_id := 1;
     min_bitrate_kbps := min_kbps;
     max_bitrate_kbps := max_kbps;
     send_codec_spec := spec |}.

Definition make_spec (c : CodecInst) (cng_type cng_freq : Z) : SendCodecSpec :=
  {| enable_codec_fec := false; enable_opus_dtx := true;
     opus_max_playback_rate := 16000; cng_payload_type := cng_type;
     cng_plfreq := cng_freq; codec_inst := c |}.

(** iSAC with comfort noise at 16 kHz, payload type 105. *)
Definition isac_cn_stream : AudioSendStream :=
  {| config_ := make_config 5000 32 64 (make_spec isac 105 16000) |}.

(** The same without a comfort-noise payload type. *)
Definition isac_no_cn_stream : AudioSendStream :=
  {| config_ := make_config 5000 32 64 (make_spec isac (-1) 16000) |}.

(** Opus, no comfort noise. *)
Definition opus_stream : AudioSendStream :=
  {| config_ := make_config 5000 32 64 (make_spec opus (-1) (-1)) |}.

(** Bounds and a NACK window that are negative, none of them -1. *)
Definition negative_config : Config :=
  make_config (-20) (-2) (-2) (make_spec isac (-1) (-1)).

Definition congestion_controller : CongestionController :=
  {| pacer := 1%N; GetTransportFeedbackObserver := 2%N; packet_router := 3%N |}.

(** A channel that is already sending. *)
Definition sending_channel : Mock.World := Mock.with_sending true Mock.fresh.

Definition block (source lost : Z) : ReportBlock :=
  {| source_SSRC := source; cumulative_num_packets_lost := lost;
     fraction_lost := 64; extended_highest_sequence_number := 900;
     interarrival_jitter := 320 |}.

(** A channel with no send codec, a report for the stream's SSRC among its
    remote report blocks, and an RTT of -1. *)
Definition reporting_channel : Mock.World :=
  {| Mock.send_codec := None; Mock.sending := true; Mock.vad := false;
     Mock.observing := false; Mock.bitrate := 0;
     Mock.call_statistics :=
       {| bytesSent := 1000; packetsSent := 10; rttMs := -1 |};
     Mock.report_blocks := [block 99 5; block 1234 7; block 1234 8] |}.

(** The same channel with iSAC as its send codec. *)
Definition reporting_isac_channel : Mock.World :=
  Mock.with_send_codec isac reporting_channel.

End Runs.

(** ** More inputs for runs on the mock engine *)

Module MoreRuns.

Definition kAbsSendTimeUri : string := "abs-send-time".
Definition kAudioLevelUri : string := "ssrc-audio-level".
Definition kTransportSequenceNumberUri : string := "transport-wide-cc".

Definition extension (uri : string) (id : Z) : RtpExtension.t :=
  {| RtpExtension.uri := uri; RtpExtension.id := id |}.

Definition with_extensions (exts : list RtpExtension.t) (config : Config)
    : Config :=
  {| rtp := {| ssrc := ssrc (rtp config); extensions := exts;
               nack := nack (rtp config); c_name := c_name (rtp config) |};
     send_transport := send_transport config;
     voe_channel_id := voe_channel_id config;
     min_bitrate_kbps := min_bitrate_kbps config;
     max_bitrate_kbps := max_bitrate_kbps config;
     send_codec_spec := send_codec_spec config |}.

(** Three extensions, each with a URI the constructor knows. *)
Definition known_extensions_config : Config :=
  with_extensions [extension kTransportSequenceNumberUri 5;
                   extension kAbsSendTimeUri 3;
                   extension kAudioLevelUri 1]
                  (config_ Runs.isac_cn_stream).

(** The same with an extension of another URI in second place. *)
Definition unknown_extension_config : Config :=
  with_extensions [extension kTransportSequenceNumberUri 5;
                   extension "toffset" 2;
                   extension kAudioLevelUri 1]
                  (config_ Runs.isac_cn_stream).

(** A codec the mock channel rejects: its payload type is negative. *)
Definition rejected_codec : CodecInst :=
  {| pltype := -5; plname := "ISAC"; plfreq := 16000; channels := 1;
     rate := 32000 |}.

Definition rejected_codec_config : Config :=
  Runs.make_config 5000 32 64 (Runs.make_spec rejected_codec 105 16000).

(** A maximum below the minimum. *)
Definition inverted_bounds_stream : AudioSendStream :=
  {| config_ := Runs.make_config 0 64 32 (Runs.make_spec Runs.isac (-1) (-1)) |}.

(** How extensions and the NACK configuration print themselves. *)
Definition show_extension (e : RtpExtension.t) : string :=
  ("{uri: " ++ RtpExtension.uri e ++ ", id: " ++ show_int (RtpExtension.id e)
   ++ "}")%string.

Definition show_nack (n : NackConfig) : string :=
  ("{rtp_history_ms: " ++ show_int (rtp_history_ms n) ++ "}")%string.

End MoreRuns.

(** ** The stream's code

    Top to bottom as in audio_send_stream.cc.  Left out: the text of the
    LOG lines (the LastError calls that compute their last operand are
    kept) and the checks of the calling thread,
    RTC_DCHECK(thread_checker_.CalledOnValidThread()): one thread runs the
    code here. *)


Definition kOpusCodecName : string := "opus".

Definition IsCodec (codec : CodecInst) (ref_name : string) : bool :=
  _stricmp (plname codec) ref_name =? 0.

Section Stream.
Context {W : Type}.
Context {channel_proxy_ : ChannelProxy W} {codec : VoECodec W}
        {base : VoEBase W} {volume : VoEVolumeControl W}
        {processing : VoEAudioProcessing W}
        {bitrate_allocator_ : BitrateAllocator W}
        {audio_state : AudioState W}.

(** Whether the build compiles RTC_DCHECK in. *)
Variable RTC_DCHECK_IS_ON : bool.

(** The URIs of the RTP header extensions, constants of RtpExtension. *)
Variables kAbsSendTimeUri kAudioLevelUri kTransportSequenceNumberUri : string.

(** [RTC_DCHECK(condition)]: nothing in a build without the checks, the
    end of the process in a build with them when the condition fails. *)
Definition RTC_DCHECK (condition : bool) : M W unit :=
  fun w => if RTC_DCHECK_IS_ON && negb condition then Fatal w [] else Done tt w [].

Definition RTC_NOTREACHED : M W unit := RTC_DCHECK false.

(** [LOG_RTCERR2(func, a1, a2, base->LastError())] and its three-argument
    form: the operands of the line are evaluated, so VoEBase is asked for
    its last error; the line itself is not kept. *)
Definition LOG_RTCERR2 : M W unit :=
  _ <- call LastError Call_LastError ;; ret tt.

Definition LOG_RTCERR3 : M W unit :=
  _ <- call LastError Call_LastError ;; ret tt.

(** *** SetupSendCodec *)

Definition SetupSendCodec (this : AudioSendStream) : M W bool :=
  let channel := voe_channel_id (config_ this) in
  (* Disable VAD and FEC unless we know the other side wants them. *)
  _ <- call (SetVADStatus channel false) (Call_SetVADStatus channel false) ;;
  _ <- call (SetFECStatus channel false) (Call_SetFECStatus channel false) ;;
  let send_codec_spec := send_codec_spec (config_ this) in
  (* If codec is already configured, we do not it again. *)
  got <- call (GetSendCodec channel CodecInst_zero)
              (fun a => Call_GetSendCodec channel (fst a) (snd a)) ;;
  let current_codec := snd got in
  (if negb (fst got =? 0) ||
      CodecInst_neq (codec_inst send_codec_spec) current_codec
   then
     rc <- call (SetSendCodec channel (codec_inst send_codec_spec))
                (Call_SetSendCodec channel (codec_inst send_codec_spec)) ;;
     if rc =? -1 then (_ <- LOG_RTCERR2 ;; return_ false) else fallthrough
   else fallthrough) ;;;
  (* FEC should be enabled after SetSendCodec. *)
  (if enable_codec_fec send_codec_spec
   then
     rc <- call (SetFECStatus channel true) (Call_SetFECStatus channel true) ;;
     if rc =? -1 then (_ <- LOG_RTCERR2 ;; return_ false) else fallthrough
   else fallthrough) ;;;
  (if IsCodec (codec_inst send_codec_spec) kOpusCodecName
   then
     (* Set Opus internal DTX. *)
     rc <- call (SetOpusDtx channel (enable_opus_dtx send_codec_spec))
                (Call_SetOpusDtx channel (enable_opus_dtx send_codec_spec)) ;;
     if negb (rc =? 0) then (_ <- LOG_RTCERR2 ;; return_ false)
     else
       (* If opus_max_playback_rate <= 0, the default maximum playback
          rate (48 kHz) will be used. *)
       if opus_max_playback_rate send_codec_spec >? 0
       then
         rc <- call (SetOpusMaxPlaybackRate channel
                       (opus_max_playback_rate send_codec_spec))
                    (Call_SetOpusMaxPlaybackRate channel
                       (opus_max_playback_rate send_codec_spec)) ;;
         if rc =? -1 then (_ <- LOG_RTCERR2 ;; return_ false) else fallthrough
       else fallthrough
   else fallthrough) ;;;
  (* Set the CN payloadtype and the VAD status. *)
  (if negb (cng_payload_type send_codec_spec =? -1)
   then
     and_then_block
       (* The CN payload type for 8000 Hz clockrate is fixed at 13. *)
       (if negb (cng_plfreq send_codec_spec =? 8000)
        then
          (* Not returning false because the SetSendCNPayloadType will
             fail if the channel is already sending. *)
          let register cn_freq :=
            rc <- call (SetSendCNPayloadType channel
                          (cng_payload_type send_codec_spec) cn_freq)
                       (Call_SetSendCNPayloadType channel
                          (cng_payload_type send_codec_spec) cn_freq) ;;
            if rc =? -1 then (_ <- LOG_RTCERR3 ;; fallthrough)
            else fallthrough in
          if cng_plfreq send_codec_spec =? 16000
          then register kFreq16000Hz
          else if cng_plfreq send_codec_spec =? 32000
          then register kFreq32000Hz
          else (_ <- RTC_NOTREACHED ;; return_ false)
        else fallthrough)
       (* Only turn on VAD if we have a CN payload type that matches the
          clockrate for the codec we are going to use. *)
       (if (cng_plfreq send_codec_spec =?
            plfreq (codec_inst send_codec_spec)) &&
           (channels (codec_inst send_codec_spec) =? 1)
        then
          rc <- call (SetVADStatus channel true)
                     (Call_SetVADStatus channel true) ;;
          if rc =? -1 then (_ <- LOG_RTCERR2 ;; return_ false) else fallthrough
        else fallthrough)
   else fallthrough) ;;;
  ret true.

(** *** The constructor *)

(** The loop over [config.rtp.extensions]. *)
Fixpoint register_extensions (exts : list RtpExtension.t) : M W unit :=
  match exts with
  | [] => ret tt
  | extension :: rest =>
      _ <- (if String.eqb (RtpExtension.uri extension) kAbsSendTimeUri
            then call_void
                   (SetSendAbsoluteSenderTimeStatus true (RtpExtension.id extension))
                   (Call_SetSendAbsoluteSenderTimeStatus true (RtpExtension.id extension))
            else if String.eqb (RtpExtension.uri extension) kAudioLevelUri
            then call_void
                   (SetSendAudioLevelIndicationStatus true (RtpExtension.id extension))
                   (Call_SetSendAudioLevelIndicationStatus true (RtpExtension.id extension))
            else if String.eqb (RtpExtension.uri extension)
                      kTransportSequenceNumberUri
            then call_void
                   (EnableSendTransportSequenceNumber (RtpExtension.id extension))
                   (Call_EnableSendTransportSequenceNumber (RtpExtension.id extension))
            else RTC_NOTREACHED) ;;
      register_extensions rest
  end.

(** [AudioSendStream::AudioSendStream].  The audio state, the worker queue
    and the allocator are pointers the object keeps; the checks that they
    are not null have nothing to fail on here. *)
Definition AudioSendStream_new (config : Config)
    (congestion_controller : CongestionController) (event_log : Handle)
    : M W AudioSendStream :=
  let this := {| config_ := config |} in
  _ <- RTC_DCHECK (negb (voe_channel_id (config_ this) =? -1)) ;;
  _ <- call_void (SetRtcEventLog event_log) (Call_SetRtcEventLog event_log) ;;
  _ <- call_void
         (RegisterSenderCongestionControlObjects
            (pacer congestion_controller)
            (GetTransportFeedbackObserver congestion_controller)
            (packet_router congestion_controller))
         (Call_RegisterSenderCongestionControlObjects
            (pacer congestion_controller)
            (GetTransportFeedbackObserver congestion_controller)
            (packet_router congestion_controller)) ;;
  _ <- call_void (SetRTCPStatus true) (Call_SetRTCPStatus true) ;;
  _ <- call_void (SetLocalSSRC (ssrc (rtp config)))
                 (Call_SetLocalSSRC (ssrc (rtp config))) ;;
  _ <- call_void (SetRTCP_CNAME (c_name (rtp config)))
                 (Call_SetRTCP_CNAME (c_name (rtp config))) ;;
  _ <- call_void
         (SetNACKStatus
            (negb (rtp_history_ms (nack (rtp (config_ this))) =? 0))
            (int_div (rtp_history_ms (nack (rtp (config_ this)))) 20))
         (Call_SetNACKStatus
            (negb (rtp_history_ms (nack (rtp (config_ this))) =? 0))
            (int_div (rtp_history_ms (nack (rtp (config_ this)))) 20)) ;;
  _ <- call_void (RegisterExternalTransport (send_transport config))
                 (Call_RegisterExternalTransport (send_transport config)) ;;
  _ <- register_extensions (extensions (rtp config)) ;;
  (* A failure to set up the send codec is logged, nothing more. *)
  _ <- SetupSendCodec this ;;
  ret this.

(** *** Start and Stop

    The task posted to the worker queue runs to its end before the caller
    goes on (the caller waits on the event), so it is a call here. *)

Definition Start (this : AudioSendStream) : M W unit :=
  _ <- (if negb (min_bitrate_kbps (config_ this) =? -1) &&
           negb (max_bitrate_kbps (config_ this) =? -1)
        then
          _ <- RTC_DCHECK (max_bitrate_kbps (config_ this) >=?
                           min_bitrate_kbps (config_ this)) ;;
          call_void
            (AddObserver (int_mul (min_bitrate_kbps (config_ this)) 1000)
                         (int_mul (max_bitrate_kbps (config_ this)) 1000)
                         0 true)
            (Call_AddObserver (int_mul (min_bitrate_kbps (config_ this)) 1000)
                              (int_mul (max_bitrate_kbps (config_ this)) 1000)
                              0 true)
        else ret tt) ;;
  _ <- call (StartSend (voe_channel_id (config_ this)))
            (Call_StartSend (voe_channel_id (config_ this))) ;;
  ret tt.

Definition Stop (this : AudioSendStream) : M W unit :=
  _ <- call_void RemoveObserver Call_RemoveObserver ;;
  _ <- call (StopSend (voe_channel_id (config_ this)))
            (Call_StopSend (voe_channel_id (config_ this))) ;;
  ret tt.

(** *** OnBitrateUpdated *)

(** [bitrate_bps] is a [uint32_t]. *)
Definition OnBitrateUpdated (this : AudioSendStream)
    (bitrate_bps fraction_loss rtt : Z) : M W Z :=
  _ <- RTC_DCHECK (bitrate_bps >=?
                   to_uint32 (int_mul (min_bitrate_kbps (config_ this)) 1000)) ;;
  (* The bitrate allocator might allocate an higher than max configured
     bitrate if there is room.  Ignore that for now. *)
  let max_bitrate_bps :=
    to_uint32 (int_mul (max_bitrate_kbps (config_ this)) 1000) in
  let bitrate_bps :=
    if bitrate_bps >? max_bitrate_bps then max_bitrate_bps else bitrate_bps in
  _ <- call_void (SetBitrate bitrate_bps) (Call_SetBitrate bitrate_bps) ;;
  (* The amount of audio protection is not exposed by the encoder, hence
     always returning 0. *)
  ret 0.

(** *** GetStats *)

(** The loop over the remote report blocks, with its [break]. *)
Fixpoint report_blocks_loop (codec_inst : CodecInst)
    (blocks : list ReportBlock) (stats : Stats) : Stats :=
  match blocks with
  | [] => stats
  | block :: rest =>
      (* Lookup report for send ssrc only. *)
      if source_SSRC block =? local_ssrc stats
      then
        let stats := set_packets_lost (cumulative_num_packets_lost block) stats in
        let stats := set_fraction_lost (Q8ToFloat (fraction_lost block)) stats in
        let stats :=
          set_ext_seqnum (extended_highest_sequence_number block) stats in
        (* Convert samples to milliseconds. *)
        if int_div (plfreq codec_inst) 1000 >? 0
        then set_jitter_ms
               (Z.div (interarrival_jitter block)
                      (int_div (plfreq codec_inst) 1000)) stats
        else stats
      else report_blocks_loop codec_inst rest stats
  end.

Definition GetStats (this : AudioSendStream) : M W Stats :=
  let stats := Stats_default in
  let stats := set_local_ssrc (ssrc (rtp (config_ this))) stats in
  call_stats <- call GetRTCPStatistics Call_GetRTCPStatistics ;;
  let stats := set_bytes_sent (bytesSent call_stats) stats in
  let stats := set_packets_sent (packetsSent call_stats) stats in
  (* RTT isn't known until a RTCP report is received. Until then,
     VoiceEngine returns 0 to indicate an error value. *)
  let stats :=
    if rttMs call_stats >? 0 then set_rtt_ms (rttMs call_stats) stats
    else stats in
  let stats := set_aec_quality_min (-1)%Q stats in
  got <- call (GetSendCodec (voe_channel_id (config_ this)) CodecInst_zero)
              (fun a => Call_GetSendCodec (voe_channel_id (config_ this))
                          (fst a) (snd a)) ;;
  let codec_inst := snd got in
  stats <- (if negb (fst got =? -1)
            then
              _ <- RTC_DCHECK (negb (pltype codec_inst =? -1)) ;;
              let stats := set_codec_name (plname codec_inst) stats in
              (* Get data from the last remote RTCP report. *)
              blocks <- call GetRemoteRTCPReportBlocks
                             Call_GetRemoteRTCPReportBlocks ;;
              ret (report_blocks_loop codec_inst blocks stats)
            else ret stats) ;;
  (* Local speech level. *)
  lvl <- call (GetSpeechInputLevelFullRange 0)
              (fun a => Call_GetSpeechInputLevelFullRange (fst a) (snd a)) ;;
  _ <- RTC_DCHECK (0 =? fst lvl) ;;
  let stats := set_audio_level (to_int32 (snd lvl)) stats in
  ec <- call (GetEcMetricsStatus false)
             (fun a => Call_GetEcMetricsStatus (fst a) (snd a)) ;;
  _ <- RTC_DCHECK (0 =? fst ec) ;;
  stats <- (if snd ec
            then
              delay <- call (GetEcDelayMetrics (-1) (-1))
                            (fun a => Call_GetEcDelayMetrics (fst a)
                                        (fst (snd a)) (snd (snd a))) ;;
              _ <- RTC_DCHECK (0 =? fst delay) ;;
              let stats := set_echo_delay_median_ms (fst (snd delay)) stats in
              let stats := set_echo_delay_std_ms (snd (snd delay)) stats in
              echo <- call (GetEchoMetrics (-100) (-100))
                           (fun a => Call_GetEchoMetrics (fst a)
                                       (fst (snd a)) (snd (snd a))) ;;
              _ <- RTC_DCHECK (0 =? fst echo) ;;
              let stats := set_echo_return_loss (fst (snd echo)) stats in
              ret (set_echo_return_loss_enhancement (snd (snd echo)) stats)
            else ret stats) ;;
  typing <- call audio_state_typing_noise_detected Call_typing_noise_detected ;;
  ret (set_typing_noise_detected typing stats).


(** *** The strings for the log *)

(** [RtpExtension::ToString] and [NackConfig::ToString] are defined with
    their structs, outside this file; [size_t] has as many bits as the
    target gives it. *)
Variable RtpExtension_ToString : RtpExtension.t -> string.
Variable NackConfig_ToString : NackConfig -> string.
Variable size_t_bits : Z.

(** The value of a [size_t] expression whose mathematical result is [x]. *)
Definition to_size_t (x : Z) : Z := x mod 2 ^ size_t_bits.

Definition ToString (codec : CodecInst) : string :=
  (plname codec ++ "/" ++ show_int (plfreq codec) ++ "/" ++
   show_int (channels codec) ++ " (" ++ show_int (pltype codec) ++ ")")%string.

(** The loop of [Config::Rtp::ToString] from index [i] on: [rest] holds
    [extensions[i]] and what follows it, [size] is [extensions.size()]. *)
Fixpoint extensions_loop (size i : Z) (rest : list RtpExtension.t)
    (ss : string) : string :=
  match rest with
  | [] => ss
  | extension :: rest' =>
      let ss := (ss ++ RtpExtension_ToString extension)%string in
      let ss :=
        if negb (i =? to_size_t (size - 1)) then (ss ++ ", ")%string else ss in
      extensions_loop size (to_size_t (i + 1)) rest' ss
  end.

Definition Rtp_ToString (rtp : Rtp) : string :=
  let ss := ("{ssrc: " ++ show_int (ssrc rtp))%string in
  let ss := (ss ++ ", extensions: [")%string in
  let ss :=
    extensions_loop (Z.of_nat (List.length (extensions rtp))) 0
                    (extensions rtp) ss in
  let ss := (ss ++ "]")%string in
  let ss := (ss ++ ", nack: " ++ NackConfig_ToString (nack rtp))%string in
  let ss := (ss ++ ", c_name: " ++ c_name rtp)%string in
  (ss ++ "}")%string.

Definition Config_ToString (config : Config) : string :=
  let ss := ("{rtp: " ++ Rtp_ToString (rtp config))%string in
  let ss := (ss ++ ", voe_channel_id: " ++ show_int (voe_channel_id config))%string in
  let ss :=
    (ss ++ ", cng_payload_type: " ++
     show_int (cng_payload_type (send_codec_spec config)))%string in
  (ss ++ "}")%string.

(** *** Statements about runs *)

(** The extension URIs the constructor has a branch for. *)
Definition recognised (extension : RtpExtension.t) : bool :=
  String.eqb (RtpExtension.uri extension) kAbsSendTimeUri ||
  String.eqb (RtpExtension.uri extension) kAudioLevelUri ||
  String.eqb (RtpExtension.uri extension) kTransportSequenceNumberUri.

(** The header extension a recognised URI stands for; the URIs are tried
    in the order absolute sender time, audio level, transport sequence
    number. *)
Definition extension_of (extension : RtpExtension.t) : HeaderExtension :=
  if String.eqb (RtpExtension.uri extension) kAbsSendTimeUri
  then AbsoluteSenderTime
  else if String.eqb (RtpExtension.uri extension) kAudioLevelUri
  then AudioLevelIndication
  else TransportSequenceNumber.

(** Switching on the header extension of [extension] with its id. *)
Definition enabled (extension : RtpExtension.t)
    : HeaderExtension * bool * Z :=
  (extension_of extension, true, RtpExtension.id extension).

(** What a run from the state [w] comes to: its value, its calls and the
    state it leaves. *)
Definition holds_after {A} (m : M W A) (w : W)
    (Q : option A -> list Event -> W -> Prop) : Prop :=
  Q (value_of (m w)) (trace_of (m w)) (state_of (m w)).

(** In the state [w] the channel holds [c] as its send codec: that is what
    the query SetupSendCodec makes would answer. *)
Definition send_codec_is (channel : Z) (c : CodecInst) (w : W) : Prop :=
  fst (GetSendCodec channel CodecInst_zero w) = (0, c).

(** A channel on which only SetSendCodec changes the send codec: the other
    calls SetupSendCodec makes, LastError on VoEBase among them, leave it. *)
Definition keeps_send_codec (channel : Z) : Prop :=
  forall c w, send_codec_is channel c w ->
    send_codec_is channel c (snd (GetSendCodec channel CodecInst_zero w)) /\
    (forall enable,
       send_codec_is channel c (snd (SetVADStatus channel enable w))) /\
    (forall enable,
       send_codec_is channel c (snd (SetFECStatus channel enable w))) /\
    (forall enable,
       send_codec_is channel c (snd (SetOpusDtx channel enable w))) /\
    (forall frequency_hz,
       send_codec_is channel c
         (snd (SetOpusMaxPlaybackRate channel frequency_hz w))) /\
    (forall type frequency,
       send_codec_is channel c
         (snd (SetSendCNPayloadType channel type frequency w))) /\
    send_codec_is channel c (snd (LastError w)).

(** A channel on which a SetSendCodec that does not answer -1 has made its
    argument the send codec. *)
Definition set_send_codec_takes (channel : Z) : Prop :=
  forall c w, fst (SetSendCodec channel c w) <> -1 ->
    send_codec_is channel c (snd (SetSendCodec channel c w)).

(** ** What every run ensures *)

Definition ensures {A} (m : M W A) (Q : option A -> list Event -> Prop) : Prop :=
  forall w, Q (value_of (m w)) (trace_of (m w)).

Lemma ensures_ret {A} (a : A) (Q : option A -> list Event -> Prop) :
  Q (Some a) [] -> ensures (ret a) Q.
Proof. intros H w. exact H. Qed.

Lemma ensures_bind {A B} (m : M W A) (k : A -> M W B)
    (Q : option B -> list Event -> Prop) :
  ensures m (fun r t1 =>
               match r with
               | Some a => ensures (k a) (fun r2 t2 => Q r2 (t1 ++ t2))
               | None => Q None t1
               end) ->
  ensures (bind m k) Q.
Proof.
  intros H w. specialize (H w). cbn [bind Monad_M]. unfold M_bind.
  destruct (m w) as [a w1 t1 | w1 t1]; cbn in *.
  - specialize (H w1). destruct (k a w1); exact H.
  - exact H.
Qed.

Lemma ensures_call {A} (method : W -> A * W) (ev : A -> Event)
    (Q : option A -> list Event -> Prop) :
  (forall a, Q (Some a) [ev a]) -> ensures (call method ev) Q.
Proof. intros H w. unfold call. destruct (method w). apply H. Qed.

Lemma ensures_call_void (method : W -> W) (ev : Event)
    (Q : option unit -> list Event -> Prop) :
  Q (Some tt) [ev] -> ensures (call_void method ev) Q.
Proof. intros H w. exact H. Qed.

Lemma ensures_RTC_DCHECK (condition : bool)
    (Q : option unit -> list Event -> Prop) :
  (RTC_DCHECK_IS_ON && negb condition = false -> Q (Some tt) []) ->
  (RTC_DCHECK_IS_ON = true -> condition = false -> Q None []) ->
  ensures (RTC_DCHECK condition) Q.
Proof.
  intros Hok Hfail w. unfold RTC_DCHECK.
  destruct (RTC_DCHECK_IS_ON && negb condition) eqn:E; cbn.
  - apply andb_true_iff in E as [E1 E2]. apply Hfail; [exact E1|].
    now destruct condition.
  - now apply Hok.
Qed.

Lemma ensures_and_then {B} (blk : M W (option B)) (rest : M W B)
    (Q : option B -> list Event -> Prop) :
  ensures blk (fun r t1 =>
                 match r with
                 | Some (Some b) => Q (Some b) (t1 ++ [])
                 | Some None => ensures rest (fun r2 t2 => Q r2 (t1 ++ t2))
                 | None => Q None t1
                 end) ->
  ensures (and_then blk rest) Q.
Proof.
  intros H. unfold and_then. apply ensures_bind.
  intros w. specialize (H w). destruct (blk w) as [[b|] w1 t1 | w1 t1]; cbn in *.
  - now apply ensures_ret.
  - exact H.
  - exact H.
Qed.

Lemma ensures_and_then_block {B} (blk rest : M W (option B))
    (Q : option (option B) -> list Event -> Prop) :
  ensures blk (fun r t1 =>
                 match r with
                 | Some (Some b) => Q (Some (Some b)) (t1 ++ [])
                 | Some None => ensures rest (fun r2 t2 => Q r2 (t1 ++ t2))
                 | None => Q None t1
                 end) ->
  ensures (and_then_block blk rest) Q.
Proof.
  intros H. unfold and_then_block. apply ensures_bind.
  intros w. specialize (H w). destruct (blk w) as [[b|] w1 t1 | w1 t1]; cbn in *.
  - now apply ensures_ret.
  - exact H.
  - exact H.
Qed.

Ltac wp_step :=
  lazymatch goal with
  | |- ensures (bind _ _) _ => apply ensures_bind
  | |- ensures (ret _) _ => apply ensures_ret
  | |- ensures (return_ _) _ => apply ensures_ret
  | |- ensures fallthrough _ => apply ensures_ret
  | |- ensures (call _ _) _ => apply ensures_call; intros ?
  | |- ensures (call_void _ _) _ => apply ensures_call_void
  | |- ensures (RTC_DCHECK _) _ =>
      apply ensures_RTC_DCHECK; [intros ? | intros ? ?]
  | |- ensures RTC_NOTREACHED _ =>
      apply ensures_RTC_DCHECK; [intros ? | intros ? ?]
  | |- ensures LOG_RTCERR2 _ => unfold LOG_RTCERR2
  | |- ensures LOG_RTCERR3 _ => unfold LOG_RTCERR3
  | |- ensures (and_then _ _) _ => apply ensures_and_then
  | |- ensures (and_then_block _ _) _ => apply ensures_and_then_block
  | |- ensures (if ?b then _ else _) _ => destruct b eqn:?
  | |- ensures (let _ := _ in _) _ => cbv zeta
  end; cbv beta iota.

Ltac wp := repeat wp_step.

(** ** Strings and codec descriptors *)

Lemma _stricmp_zero_iff (s1 s2 : string) :
  _stricmp s1 s2 = 0 <-> lowered s1 = lowered s2.
Proof.
  revert s2. induction s1 as [|c1 r1 IH]; intros [|c2 r2]; cbn;
    try (split; [discriminate | discriminate]); [tauto|].
  destruct (Z.ltb_spec (tolower c1) (tolower c2)) as [Hlt|Hge].
  - split; [discriminate|]. intros E. injection E as E _. lia.
  - destruct (Z.ltb_spec (tolower c2) (tolower c1)) as [Hgt|Hle].
    + split; [discriminate|]. intros E. injection E as E _. lia.
    + rewrite IH. replace (tolower c2) with (tolower c1) by lia.
      split; [now intros ->|]. now intros E; injection E.
Qed.

Lemma IsCodec_iff (c : CodecInst) (ref_name : string) :
  IsCodec c ref_name = true <-> lowered (plname c) = lowered ref_name.
Proof. unfold IsCodec. now rewrite Z.eqb_eq, _stricmp_zero_iff. Qed.

Lemma CodecInst_eq_iff (a b : CodecInst) :
  CodecInst_eq a b = true <->
  pltype a = pltype b /\ plname a = plname b /\ plfreq a = plfreq b /\
  channels a = channels b /\ rate a = rate b.
Proof.
  unfold CodecInst_eq.
  rewrite !andb_true_iff, !Z.eqb_eq, String.eqb_eq. tauto.
Qed.

Lemma CodecInst_neq_false_iff (a b : CodecInst) :
  CodecInst_neq a b = false <-> a = b.
Proof.
  unfold CodecInst_neq. rewrite negb_false_iff, CodecInst_eq_iff.
  split.
  - destruct a, b; cbn. intros (-> & -> & -> & -> & ->). reflexivity.
  - intros ->. tauto.
Qed.

(** ** SetupSendCodec *)

(** C1.  SetupSendCodec asks the channel for its send codec once; when the
    query answers 0 and the active codec equals the requested descriptor
    field by field (payload type, name, clock rate, channel count,
    bitrate), no SetSendCodec call is made; when the query answers anything
    else, or the descriptors differ, exactly one is made, for the requested
    codec on the stream's channel. *)
Theorem SetupSendCodec_sets_codec_iff_changed (this : AudioSendStream) (w : W) :
  let requested := codec_inst (send_codec_spec (config_ this)) in
  let tr := trace_of (SetupSendCodec this w) in
  exists rc current,
    send_codec_query tr = Some (rc, current) /\
    set_codec_calls tr =
      (if negb (rc =? 0) || CodecInst_neq requested current
       then [(voe_channel_id (config_ this), requested)] else []) /\
    (negb (rc =? 0) || CodecInst_neq requested current = false <->
     rc = 0 /\ pltype requested = pltype current /\
     plname requested = plname current /\ plfreq requested = plfreq current /\
     channels requested = channels current /\ rate requested = rate current).
Proof.
  intros requested tr. subst tr. revert w.
  change (ensures (SetupSendCodec this) (fun _ tr =>
    exists rc current,
      send_codec_query tr = Some (rc, current) /\
      set_codec_calls tr =
        (if negb (rc =? 0) || CodecInst_neq requested current
         then [(voe_channel_id (config_ this), requested)] else []) /\
      (negb (rc =? 0) || CodecInst_neq requested current = false <->
       rc = 0 /\ pltype requested = pltype current /\
       plname requested = plname current /\ plfreq requested = plfreq current /\
       channels requested = channels current /\ rate requested = rate current))).
  assert (Hfields : forall rc current,
    negb (rc =? 0) || CodecInst_neq requested current = false <->
     rc = 0 /\ pltype requested = pltype current /\
     plname requested = plname current /\ plfreq requested = plfreq current /\
     channels requested = channels current /\ rate requested = rate current).
  { intros rc current. unfold CodecInst_neq.
    rewrite orb_false_iff, !negb_false_iff, Z.eqb_eq, CodecInst_eq_iff. tauto. }
  unfold SetupSendCodec. wp.
  all: match goal with
       | a : (Z * CodecInst)%type |- _ => exists (fst a), (snd a)
       end.
  all: cbn; subst requested;
    (split; [reflexivity | split; [| apply Hfields]]);
    match goal with H : _ || _ = _ |- _ => rewrite H end; reflexivity.
Qed.

(** C6.  A codec whose name is not "opus" up to the case of its letters
    gets no Opus call from SetupSendCodec, whatever the DTX flag and the
    maximum playback rate of the configuration say; and a
    SetOpusMaxPlaybackRate call, when one is made, is for an Opus codec and
    carries the configured rate, which is positive. *)
Theorem SetupSendCodec_opus_gating (this : AudioSendStream) (w : W) :
  let spec := send_codec_spec (config_ this) in
  let tr := trace_of (SetupSendCodec this w) in
  (lowered (plname (codec_inst spec)) <> lowered kOpusCodecName ->
   forall e, In e tr -> is_opus_call e = false) /\
  (forall ch r rc, In (Call_SetOpusMaxPlaybackRate ch r rc) tr ->
   lowered (plname (codec_inst spec)) = lowered kOpusCodecName /\
   r = opus_max_playback_rate spec /\ 0 < r).
Proof.
  intros spec tr. subst tr. split.
  - intros Hname. apply Forall_forall. revert w.
    change (ensures (SetupSendCodec this)
              (fun _ tr => Forall (fun e => is_opus_call e = false) tr)).
    assert (Hno : IsCodec (codec_inst spec) kOpusCodecName = false).
    { destruct (IsCodec (codec_inst spec) kOpusCodecName) eqn:E; [|reflexivity].
      apply IsCodec_iff in E. contradiction. }
    unfold SetupSendCodec. cbv zeta. fold spec. rewrite Hno.
    wp; cbn; repeat constructor.
  - revert w.
    change (ensures (SetupSendCodec this) (fun _ tr =>
      forall ch r rc, In (Call_SetOpusMaxPlaybackRate ch r rc) tr ->
        lowered (plname (codec_inst spec)) = lowered kOpusCodecName /\
        r = opus_max_playback_rate spec /\ 0 < r)).
    unfold SetupSendCodec. wp.
    all: cbn [In app]; intros ch r rc Hin;
      repeat match goal with
             | H : _ \/ _ |- _ => destruct H as [H|H]; try discriminate H
             | H : False |- _ => destruct H
             end.
    all: injection Hin as <- <- <-; subst spec;
      repeat split; [now apply IsCodec_iff | apply Z.gtb_lt; assumption].
Qed.

Ltac bool_hyps :=
  repeat match goal with
         | H : negb _ = true |- _ => apply negb_true_iff in H
         | H : negb _ = false |- _ => apply negb_false_iff in H
         | H : _ && _ = true |- _ => apply andb_true_iff in H; destruct H
         | H : _ && _ = false |- _ => apply andb_false_iff in H
         | H : _ || _ = false |- _ => apply orb_false_iff in H; destruct H
         | H : _ || _ = true |- _ => apply orb_true_iff in H
         | H : (_ =? _) = true |- _ => apply Z.eqb_eq in H
         | H : (_ =? _) = false |- _ => apply Z.eqb_neq in H
         | H : (_ >? _) = true |- _ => apply Z.gtb_lt in H
         | H : (_ >? _) = false |- _ => rewrite Z.gtb_ltb in H; apply Z.ltb_ge in H
         end.

(** C2, as the code has it.  After a run of SetupSendCodec that returned
    true, the last VAD setting asked of the channel is "enabled" exactly
    when a comfort-noise payload type is configured (not -1), its clock rate
    equals the codec's and the codec has one channel; in every other case
    the only VAD call is the initial one that disables it. *)
Theorem SetupSendCodec_vad_gating (this : AudioSendStream) (w : W) :
  value_of (SetupSendCodec this w) = Some true ->
  let spec := send_codec_spec (config_ this) in
  let tr := trace_of (SetupSendCodec this w) in
  (vad_enabled tr = true <->
   cng_payload_type spec <> -1 /\
   cng_plfreq spec = plfreq (codec_inst spec) /\
   channels (codec_inst spec) = 1) /\
  (vad_enabled tr = false -> vad_requests tr = [false]).
Proof.
  revert w.
  change (ensures (SetupSendCodec this) (fun r tr =>
    r = Some true ->
    let spec := send_codec_spec (config_ this) in
    (vad_enabled tr = true <->
     cng_payload_type spec <> -1 /\
     cng_plfreq spec = plfreq (codec_inst spec) /\
     channels (codec_inst spec) = 1) /\
    (vad_enabled tr = false -> vad_requests tr = [false]))).
  unfold SetupSendCodec. wp.
  all: intros Hr; try discriminate Hr; clear Hr.
  all: cbv zeta; unfold vad_enabled; cbn [vad_requests flat_map app last].
  all: bool_hyps.
  all: split; [split; [intros E; try discriminate E | intros (? & ? & ?)]
              | intros E; try discriminate E; try reflexivity ].
  all: try (repeat split; assumption); try reflexivity; try contradiction.
  all: repeat match goal with H : _ \/ _ |- _ => destruct H end;
       bool_hyps; try contradiction; try lia.
Qed.

(** C4.  With a comfort-noise payload type configured: at 8000 Hz
    SetupSendCodec makes no SetSendCNPayloadType call; at a clock rate
    other than 8000, 16000 and 32000 Hz it makes none either, hits
    RTC_NOTREACHED and does not return true (it returns false where the
    checks are compiled out); and once a registration has been asked, at
    16000 or 32000 Hz, whatever the channel answered, the run goes on: it
    returns, it still asks for VAD when clock rate and channel count call
    for it, and it returns true exactly when no fatal step failed.  In
    general the value returned is true exactly when no fatal step failed
    and the comfort-noise clock rate was one the code has a case for. *)
Theorem SetupSendCodec_cng_registration (this : AudioSendStream) (w : W) :
  let spec := send_codec_spec (config_ this) in
  let r := SetupSendCodec this w in
  let tr := trace_of r in
  (cng_plfreq spec = 8000 -> cn_calls tr = []) /\
  (cng_payload_type spec <> -1 -> cng_plfreq spec <> 8000 ->
   cng_plfreq spec <> 16000 -> cng_plfreq spec <> 32000 ->
   cn_calls tr = [] /\ value_of r <> Some true /\
   (RTC_DCHECK_IS_ON = false -> value_of r = Some false)) /\
  (forall b, value_of r = Some b ->
   (b = true <->
    existsb fatal_step_failed tr = false /\ cng_rate_supported spec = true)) /\
  (forall type f rc, In (type, f, rc) (cn_calls tr) ->
   cng_payload_type spec <> -1 /\ type = cng_payload_type spec /\
   (f = kFreq16000Hz /\ cng_plfreq spec = 16000 \/
    f = kFreq32000Hz /\ cng_plfreq spec = 32000) /\
   value_of r = Some (negb (existsb fatal_step_failed tr)) /\
   (cng_plfreq spec = plfreq (codec_inst spec) ->
    channels (codec_inst spec) = 1 -> In true (vad_requests tr))).
Proof.
  intros spec r tr. subst r tr. revert w.
  change (ensures (SetupSendCodec this) (fun v tr =>
    (cng_plfreq spec = 8000 -> cn_calls tr = []) /\
    (cng_payload_type spec <> -1 -> cng_plfreq spec <> 8000 ->
     cng_plfreq spec <> 16000 -> cng_plfreq spec <> 32000 ->
     cn_calls tr = [] /\ v <> Some true /\
     (RTC_DCHECK_IS_ON = false -> v = Some false)) /\
    (forall b, v = Some b ->
     (b = true <->
      existsb fatal_step_failed tr = false /\ cng_rate_supported spec = true)) /\
    (forall type f rc, In (type, f, rc) (cn_calls tr) ->
     cng_payload_type spec <> -1 /\ type = cng_payload_type spec /\
     (f = kFreq16000Hz /\ cng_plfreq spec = 16000 \/
      f = kFreq32000Hz /\ cng_plfreq spec = 32000) /\
     v = Some (negb (existsb fatal_step_failed tr)) /\
     (cng_plfreq spec = plfreq (codec_inst spec) ->
      channels (codec_inst spec) = 1 -> In true (vad_requests tr))))).
  unfold SetupSendCodec. cbv zeta. fold spec. unfold cng_rate_supported. wp.
  all: cbn [cn_calls vad_requests flat_map app existsb fatal_step_failed In orb].
  all: repeat match goal with
              | H : negb _ = true |- _ => apply negb_true_iff in H
              | H : negb _ = false |- _ => apply negb_false_iff in H
              end.
  all: repeat match goal with
              | H : (?x =? ?y) = _ |- _ => rewrite ?H; revert H
              end; intros.
  all: cbn [orb andb negb].
  all: bool_hyps.
  all: repeat match goal with H : _ \/ _ |- _ => destruct H end; bool_hyps.
  all: split; [| split; [| split]].
  all: try (intros E8000; first [reflexivity | exfalso; lia]).
  all: try (intros Hpt H8 H16 H32; first [exfalso; lia |
         split; [reflexivity | split; [discriminate |
           intros Hoff; first [reflexivity | congruence]]]]).
  all: try (intros b E; first [discriminate E | injection E as <-;
         split; [intros E; first [discriminate E | split; reflexivity]
                | intros [E1 E2];
                  first [discriminate E1 | discriminate E2 | reflexivity]]]).
  all: try (intros type f rc Hin;
        repeat match goal with
               | H : _ \/ _ |- _ => destruct H as [H|H]
               | H : False |- _ => destruct H
               end;
        injection Hin as <- <- <-;
        split; [assumption | split; [reflexivity | split; [tauto | split;
          [reflexivity | intros Hf Hc; cbn [In]; first [tauto | exfalso; lia]]]]]).
Qed.

(** ** Start, Stop and OnBitrateUpdated *)

Lemma to_int32_small (x : Z) : - 2 ^ 31 <= x < 2 ^ 31 -> to_int32 x = x.
Proof.
  intros H. unfold to_int32. rewrite Z.mod_small; lia.
Qed.

Lemma to_uint32_small (x : Z) : 0 <= x < 2 ^ 32 -> to_uint32 x = x.
Proof. intros H. unfold to_uint32. now apply Z.mod_small. Qed.

(** C3.  For a bitrate that is at least the configured minimum (what the
    RTC_DCHECK of OnBitrateUpdated asks), the call returns 0 and makes one
    call on the channel, SetBitrate: with the bitrate it was given when that
    is at most [max_bitrate_bps], and with [max_bitrate_bps] when it is
    more; [max_bitrate_bps] is the configured kbps bound times 1000 as a
    [uint32_t], which is that product itself whenever the product is a
    non-negative [int]. *)
Theorem OnBitrateUpdated_clamps (this : AudioSendStream)
    (bitrate_bps fraction_loss rtt : Z) (w : W) :
  bitrate_bps >=
    to_uint32 (int_mul (min_bitrate_kbps (config_ this)) 1000) ->
  let max_bitrate_bps :=
    to_uint32 (int_mul (max_bitrate_kbps (config_ this)) 1000) in
  let r := OnBitrateUpdated this bitrate_bps fraction_loss rtt w in
  value_of r = Some 0 /\
  (bitrate_bps <= max_bitrate_bps ->
   trace_of r = [Call_SetBitrate bitrate_bps] /\
   state_of r = SetBitrate bitrate_bps w) /\
  (bitrate_bps > max_bitrate_bps ->
   trace_of r = [Call_SetBitrate max_bitrate_bps] /\
   state_of r = SetBitrate max_bitrate_bps w) /\
  (0 <= max_bitrate_kbps (config_ this) * 1000 < 2 ^ 31 ->
   max_bitrate_bps = max_bitrate_kbps (config_ this) * 1000).
Proof.
  intros Hmin max_bitrate_bps r. subst r.
  unfold OnBitrateUpdated, RTC_DCHECK. cbn [bind ret Monad_M].
  unfold M_bind, M_ret, call_void. fold max_bitrate_bps.
  assert (Hcheck : (bitrate_bps >=?
            to_uint32 (int_mul (min_bitrate_kbps (config_ this)) 1000)) = true)
    by (apply Z.geb_le; lia).
  rewrite Hcheck, andb_false_r. cbn [value_of trace_of state_of app].
  split; [reflexivity|]. split; [|split].
  - intros Hle. replace (bitrate_bps >? max_bitrate_bps) with false.
    + now split.
    + symmetry. rewrite Z.gtb_ltb. apply Z.ltb_ge. exact Hle.
  - intros Hgt. replace (bitrate_bps >? max_bitrate_bps) with true.
    + now split.
    + symmetry. apply Z.gtb_lt. lia.
  - intros Hrange. subst max_bitrate_bps. unfold int_mul.
    rewrite to_int32_small by lia. apply to_uint32_small. lia.
Qed.

(** C5, as the code has it.  For a configuration whose bounds in bps fit an
    [int] and pass the check that the maximum is not below the minimum:
    Start registers the stream with the bitrate allocator, with the two
    bounds times 1000, exactly when neither bound is -1, and then starts
    sending on the channel; Stop removes the stream from the allocator on
    every run and then stops sending on the channel. *)
Theorem Start_registers_unless_disabled_Stop_deregisters
    (this : AudioSendStream) (w : W) :
  (RTC_DCHECK_IS_ON = true ->
   min_bitrate_kbps (config_ this) <> -1 ->
   max_bitrate_kbps (config_ this) <> -1 ->
   max_bitrate_kbps (config_ this) >= min_bitrate_kbps (config_ this)) ->
  - 2 ^ 31 <= min_bitrate_kbps (config_ this) * 1000 < 2 ^ 31 ->
  - 2 ^ 31 <= max_bitrate_kbps (config_ this) * 1000 < 2 ^ 31 ->
  (value_of (Start this w) = Some tt /\
   (min_bitrate_kbps (config_ this) <> -1 /\
    max_bitrate_kbps (config_ this) <> -1 ->
    exists rc, trace_of (Start this w) =
      [Call_AddObserver (min_bitrate_kbps (config_ this) * 1000)
                        (max_bitrate_kbps (config_ this) * 1000) 0 true;
       Call_StartSend (voe_channel_id (config_ this)) rc]) /\
   (min_bitrate_kbps (config_ this) = -1 \/
    max_bitrate_kbps (config_ this) = -1 ->
    exists rc, trace_of (Start this w) =
      [Call_StartSend (voe_channel_id (config_ this)) rc])) /\
  (value_of (Stop this w) = Some tt /\
   exists rc, trace_of (Stop this w) =
     [Call_RemoveObserver; Call_StopSend (voe_channel_id (config_ this)) rc]).
Proof.
  set (min := min_bitrate_kbps (config_ this)).
  set (max := max_bitrate_kbps (config_ this)).
  intros Hcheck Hmin Hmax. split.
  - unfold Start, RTC_DCHECK. cbn [bind ret Monad_M].
    unfold M_bind, M_ret, call_void, call. fold min max.
    unfold int_mul. rewrite !to_int32_small by assumption.
    destruct (Z.eqb_spec min (-1)) as [Emin|Nmin];
      [|destruct (Z.eqb_spec max (-1)) as [Emax|Nmax]]; cbn [negb andb].
    + destruct (StartSend _ w) as [rc w']. cbn.
      split; [reflexivity|]. split; [tauto|]. intros _. now exists rc.
    + destruct (StartSend _ w) as [rc w']. cbn.
      split; [reflexivity|]. split; [tauto|]. intros _. now exists rc.
    + assert (Hc : RTC_DCHECK_IS_ON && negb (max >=? min) = false).
      { destruct RTC_DCHECK_IS_ON; [|reflexivity]. cbn.
        apply negb_false_iff, Z.geb_le.
        specialize (Hcheck eq_refl Nmin Nmax). lia. }
      rewrite Hc. cbn.
      destruct (StartSend _ _) as [rc w']. cbn.
      split; [reflexivity|]. split; [|intros [E|E]; contradiction].
      intros _. now exists rc.
  - unfold Stop. cbn [bind ret Monad_M]. unfold M_bind, M_ret, call_void, call.
    destruct (StopSend _ _) as [rc w']. cbn. split; [reflexivity|]. now exists rc.
Qed.

(** ** GetStats *)

(** The loop stops at the first block of the stream's SSRC. *)
Lemma report_blocks_loop_find (codec_inst : CodecInst)
    (blocks : list ReportBlock) (stats : Stats) :
  report_blocks_loop codec_inst blocks stats =
  match find (fun block => source_SSRC block =? local_ssrc stats) blocks with
  | Some block =>
      let stats := set_packets_lost (cumulative_num_packets_lost block) stats in
      let stats := set_fraction_lost (Q8ToFloat (fraction_lost block)) stats in
      let stats :=
        set_ext_seqnum (extended_highest_sequence_number block) stats in
      if int_div (plfreq codec_inst) 1000 >? 0
      then set_jitter_ms
             (Z.div (interarrival_jitter block)
                    (int_div (plfreq codec_inst) 1000)) stats
      else stats
  | None => stats
  end.
Proof.
  induction blocks as [|block rest IH]; [reflexivity|].
  cbn [report_blocks_loop find].
  destruct (source_SSRC block =? local_ssrc stats); [reflexivity | exact IH].
Qed.

(** The loop writes the four report fields and nothing else. *)
Lemma report_blocks_loop_frame (codec_inst : CodecInst)
    (blocks : list ReportBlock) (stats : Stats) :
  let stats' := report_blocks_loop codec_inst blocks stats in
  local_ssrc stats' = local_ssrc stats /\ rtt_ms stats' = rtt_ms stats /\
  codec_name stats' = codec_name stats.
Proof.
  cbv zeta. rewrite report_blocks_loop_find.
  destruct (find _ blocks); [|tauto].
  cbv zeta. destruct (_ >? _); cbn; tauto.
Qed.

(** C7, as the code has it.  GetStats returns unless a check fails in a
    build with the checks; in the snapshot it returns, the round-trip time
    is the one the channel reported when that is positive, and is unset
    otherwise: unset for a report of 0 in particular, and never 0. *)
Theorem GetStats_rtt_absent_unless_positive (this : AudioSendStream) (w : W) :
  let r := GetStats this w in
  match value_of r with
  | Some stats =>
      exists call_stats,
        reported_call_stats (trace_of r) = Some call_stats /\
        (rttMs call_stats > 0 -> rtt_ms stats = Some (rttMs call_stats)) /\
        (rttMs call_stats <= 0 -> rtt_ms stats = None) /\
        (rttMs call_stats = 0 -> rtt_ms stats = None) /\
        rtt_ms stats <> Some 0
  | None => RTC_DCHECK_IS_ON = true
  end.
Proof.
  cbv zeta. revert w.
  change (ensures (GetStats this) (fun v tr =>
    match v with
    | Some stats =>
        exists call_stats,
          reported_call_stats tr = Some call_stats /\
          (rttMs call_stats > 0 -> rtt_ms stats = Some (rttMs call_stats)) /\
          (rttMs call_stats <= 0 -> rtt_ms stats = None) /\
          (rttMs call_stats = 0 -> rtt_ms stats = None) /\
          rtt_ms stats <> Some 0
    | None => RTC_DCHECK_IS_ON = true
    end)).
  unfold GetStats. wp.
  all: try assumption.
  all: match goal with cs : CallStatistics |- _ => exists cs end.
  all: split; [reflexivity|].
  all: cbn [rtt_ms set_typing_noise_detected set_echo_return_loss_enhancement
            set_echo_return_loss set_echo_delay_std_ms set_echo_delay_median_ms
            set_audio_level].
  all: rewrite ?(proj1 (proj2 (report_blocks_loop_frame _ _ _))).
  all: cbn [rtt_ms set_codec_name set_aec_quality_min].
  all: match goal with
       | |- context [rttMs ?cs >? 0] =>
           destruct (Z.gtb_spec (rttMs cs) 0) as [Hpos|Hnonpos]
       end.
  all: cbn; repeat split; intros; try reflexivity; try lia; try discriminate.
  all: injection; lia.
Qed.

Lemma report_fields_loop (codec_inst : CodecInst) (blocks : list ReportBlock)
    (stats : Stats) :
  report_fields stats = (None, None, None, None) ->
  report_fields (report_blocks_loop codec_inst blocks stats) =
  match find (fun block => source_SSRC block =? local_ssrc stats) blocks with
  | Some block =>
      (Some (cumulative_num_packets_lost block),
       Some (Q8ToFloat (fraction_lost block)),
       Some (extended_highest_sequence_number block),
       if int_div (plfreq codec_inst) 1000 >? 0
       then Some (interarrival_jitter block / int_div (plfreq codec_inst) 1000)
       else None)
  | None => (None, None, None, None)
  end.
Proof.
  intros Hunset. rewrite report_blocks_loop_find.
  destruct (find _ blocks) as [block|]; [|exact Hunset].
  cbv zeta. unfold report_fields in *.
  injection Hunset as _ _ _ Hjitter.
  destruct (_ >? _); cbn; [reflexivity | now rewrite Hjitter].
Qed.


(** C10.  When the GetSendCodec query of GetStats answers -1, the channel
    is not asked for its remote report blocks, and in the snapshot returned
    the codec name, the packet loss, the fraction lost, the extended
    sequence number and the jitter are all unset, whatever report blocks the
    channel holds. *)
Theorem GetStats_codec_query_failure (this : AudioSendStream) (w : W)
    (codec_inst : CodecInst) :
  send_codec_query (trace_of (GetStats this w)) = Some (-1, codec_inst) ->
  reported_blocks (trace_of (GetStats this w)) = None /\
  match value_of (GetStats this w) with
  | Some stats =>
      codec_name stats = None /\ packets_lost stats = None /\
      stats_fraction_lost stats = None /\ ext_seqnum stats = None /\
      jitter_ms stats = None
  | None => RTC_DCHECK_IS_ON = true
  end.
Proof.
  revert w.
  change (ensures (GetStats this) (fun v tr =>
    send_codec_query tr = Some (-1, codec_inst) ->
    reported_blocks tr = None /\
    match v with
    | Some stats =>
        codec_name stats = None /\ packets_lost stats = None /\
        stats_fraction_lost stats = None /\ ext_seqnum stats = None /\
        jitter_ms stats = None
    | None => RTC_DCHECK_IS_ON = true
    end)).
  unfold GetStats. wp.
  all: cbn [reported_blocks send_codec_query app].
  all: intros [= Hrc Hcodec].
  all: bool_hyps; try contradiction.
  all: split; [reflexivity|]; try assumption.
  all: match goal with
       | |- context [rttMs ?cs >? 0] => destruct (rttMs cs >? 0)
       end.
  all: cbn; repeat split.
Qed.

(** ** The constructor *)

Lemma ensures_weaken {A} (m : M W A) (P Q : option A -> list Event -> Prop) :
  ensures m P -> (forall r tr, P r tr -> Q r tr) -> ensures m Q.
Proof. intros Hm HPQ w. apply HPQ, Hm. Qed.

Lemma nack_calls_app (t1 t2 : list Event) :
  nack_calls (t1 ++ t2) = nack_calls t1 ++ nack_calls t2.
Proof. apply flat_map_app. Qed.

Lemma register_extensions_no_nack (exts : list RtpExtension.t) :
  ensures (register_extensions exts) (fun _ tr => nack_calls tr = []).
Proof.
  induction exts as [|extension rest IH]; cbn [register_extensions].
  - now apply ensures_ret.
  - wp; try reflexivity.
    all: eapply ensures_weaken; [exact IH|]; intros r tr Htr;
      rewrite nack_calls_app, Htr; reflexivity.
Qed.

Lemma SetupSendCodec_no_nack (this : AudioSendStream) :
  ensures (SetupSendCodec this) (fun _ tr => nack_calls tr = []).
Proof. unfold SetupSendCodec. wp; reflexivity. Qed.

(** C9, as the code has it.  Construction (past its check of the channel
    id) makes one SetNACKStatus call on the channel: NACK is enabled exactly
    when the configured history window is not 0 ms, and the window passed
    is the millisecond window divided by 20, the quotient truncated towards
    zero. *)
Theorem AudioSendStream_new_configures_nack (config : Config)
    (congestion_controller : CongestionController) (event_log : Handle)
    (w : W) :
  (RTC_DCHECK_IS_ON = true -> voe_channel_id config <> -1) ->
  exists enable window,
    nack_calls
      (trace_of (AudioSendStream_new config congestion_controller event_log w))
    = [(enable, window)] /\
    (enable = true <-> rtp_history_ms (nack (rtp config)) <> 0) /\
    window = Z.quot (rtp_history_ms (nack (rtp config))) 20.
Proof.
  intros Hid. revert w.
  change (ensures (AudioSendStream_new config congestion_controller event_log)
    (fun _ tr => exists enable window,
       nack_calls tr = [(enable, window)] /\
       (enable = true <-> rtp_history_ms (nack (rtp config)) <> 0) /\
       window = Z.quot (rtp_history_ms (nack (rtp config))) 20)).
  unfold AudioSendStream_new. cbv zeta. cbn [config_].
  apply ensures_bind, ensures_RTC_DCHECK.
  2: { intros Hon Hcond. apply negb_false_iff, Z.eqb_eq in Hcond.
       now elim (Hid Hon). }
  intros _. wp.
  eapply ensures_weaken; [exact (register_extensions_no_nack _)|].
  intros [[]|] t1 Ht1.
  - apply ensures_bind.
    eapply ensures_weaken; [exact (SetupSendCodec_no_nack _)|].
    intros [b|] t2 Ht2; [apply ensures_ret|].
    all: exists (negb (rtp_history_ms (nack (rtp config)) =? 0)),
           (int_div (rtp_history_ms (nack (rtp config))) 20).
    all: rewrite ?nack_calls_app, Ht1, ?Ht2; cbn.
    all: split; [reflexivity|]; split; [|reflexivity].
    all: rewrite negb_true_iff; apply Z.eqb_neq.
  - exists (negb (rtp_history_ms (nack (rtp config)) =? 0)),
      (int_div (rtp_history_ms (nack (rtp config))) 20).
    rewrite ?nack_calls_app, Ht1; cbn.
    split; [reflexivity|]; split; [|reflexivity].
    rewrite negb_true_iff; apply Z.eqb_neq.
Qed.

(** ** More about SetupSendCodec *)

Ltac rewrite_tests :=
  repeat match goal with
         | H : negb _ = true |- _ => apply negb_true_iff in H
         | H : negb _ = false |- _ => apply negb_false_iff in H
         end;
  repeat match goal with
         | H : (?x =? ?y) = _ |- _ => rewrite ?H; revert H
         end; intros.


(** X2.  Every run of SetupSendCodec begins by disabling VAD, disabling
    FEC and asking for the send codec, in that order, on the stream's
    channel, however the run ends. *)
Theorem SetupSendCodec_baseline_reset_first (this : AudioSendStream) (w : W) :
  exists rc_vad rc_fec rc current rest,
    trace_of (SetupSendCodec this w) =
    Call_SetVADStatus (voe_channel_id (config_ this)) false rc_vad ::
    Call_SetFECStatus (voe_channel_id (config_ this)) false rc_fec ::
    Call_GetSendCodec (voe_channel_id (config_ this)) rc current :: rest.
Proof.
  revert w.
  change (ensures (SetupSendCodec this) (fun _ tr =>
    exists rc_vad rc_fec rc current rest,
      tr =
      Call_SetVADStatus (voe_channel_id (config_ this)) false rc_vad ::
      Call_SetFECStatus (voe_channel_id (config_ this)) false rc_fec ::
      Call_GetSendCodec (voe_channel_id (config_ this)) rc current :: rest)).
  unfold SetupSendCodec. wp.
  all: cbn [app]; do 5 eexists; reflexivity.
Qed.


(** X4.  FEC is first disabled and then enabled at most once, only when
    the configuration asks for it; no SetSendCodec call follows the
    enabling; and in a run that returns true FEC was enabled exactly when
    the configuration asks for it. *)
Theorem SetupSendCodec_fec_after_codec (this : AudioSendStream) (w : W) :
  let r := SetupSendCodec this w in
  let enable := enable_codec_fec (send_codec_spec (config_ this)) in
  (fec_requests (trace_of r) = [false] \/
   fec_requests (trace_of r) = [false; true] /\ enable = true) /\
  set_codec_calls (calls_after is_fec_enable (trace_of r)) = [] /\
  (value_of r = Some true ->
   fec_requests (trace_of r) = false :: (if enable then [true] else [])).
Proof.
  cbv zeta. revert w.
  change (ensures (SetupSendCodec this) (fun v tr =>
    (fec_requests tr = [false] \/
     fec_requests tr = [false; true] /\
     enable_codec_fec (send_codec_spec (config_ this)) = true) /\
    set_codec_calls (calls_after is_fec_enable tr) = [] /\
    (v = Some true ->
     fec_requests tr =
     false :: (if enable_codec_fec (send_codec_spec (config_ this))
               then [true] else [])))).
  unfold SetupSendCodec. wp.
  all: cbn [fec_requests set_codec_calls calls_after is_fec_enable flat_map app].
  all: match goal with
       | H : enable_codec_fec _ = _ |- _ => rewrite ?H
       | _ => idtac
       end.
  all: split; [first [left; reflexivity | right; split; reflexivity]|].
  all: split; [reflexivity|].
  all: intros E; first [reflexivity | discriminate E].
Qed.

(** X5.  In a run that returns true for a codec named Opus (in any case of
    letters), SetOpusDtx was called once, with the configured flag, and
    SetOpusMaxPlaybackRate once with the configured rate when that is
    positive and not at all otherwise; whatever the outcome, no
    SetSendCodec call follows an Opus call. *)
Theorem SetupSendCodec_opus_controls (this : AudioSendStream) (w : W) :
  let r := SetupSendCodec this w in
  let spec := send_codec_spec (config_ this) in
  (value_of r = Some true ->
   lowered (plname (codec_inst spec)) = lowered kOpusCodecName ->
   opus_dtx_calls (trace_of r) = [enable_opus_dtx spec] /\
   playback_rate_calls (trace_of r) =
     (if opus_max_playback_rate spec >? 0
      then [opus_max_playback_rate spec] else [])) /\
  set_codec_calls (calls_after is_opus_call (trace_of r)) = [].
Proof.
  cbv zeta. split.
  - intros Htrue Hname. apply IsCodec_iff in Hname.
    revert w Htrue.
    change (ensures (SetupSendCodec this) (fun v tr =>
      v = Some true ->
      opus_dtx_calls tr = [enable_opus_dtx (send_codec_spec (config_ this))] /\
      playback_rate_calls tr =
        (if opus_max_playback_rate (send_codec_spec (config_ this)) >? 0
         then [opus_max_playback_rate (send_codec_spec (config_ this))]
         else []))).
    unfold SetupSendCodec. cbv zeta. rewrite Hname. wp.
    all: intros E; try discriminate E.
    all: cbn [opus_dtx_calls playback_rate_calls flat_map app].
    all: split; reflexivity.
  - revert w.
    change (ensures (SetupSendCodec this) (fun _ tr =>
      set_codec_calls (calls_after is_opus_call tr) = [])).
    unfold SetupSendCodec. wp; reflexivity.
Qed.

(** A run ends without returning only at RTC_NOTREACHED. *)
Lemma SetupSendCodec_abort_needs_unsupported_rate (this : AudioSendStream) :
  ensures (SetupSendCodec this) (fun v _ =>
    v = None ->
    RTC_DCHECK_IS_ON = true /\
    cng_rate_supported (send_codec_spec (config_ this)) = false).
Proof.
  unfold SetupSendCodec, cng_rate_supported. wp.
  all: intros E; try discriminate E.
  all: rewrite_tests; cbn [orb]; split; [assumption | reflexivity].
Qed.

(** X6.  SetupSendCodec ends without returning only in a build with the
    checks, for a configured comfort-noise clock rate other than 8000,
    16000 and 32000 Hz, and after every fatal step before it succeeded;
    in every other case it returns. *)
Theorem SetupSendCodec_aborts_only_at_unsupported_rate
    (this : AudioSendStream) (w : W) :
  value_of (SetupSendCodec this w) = None <->
  RTC_DCHECK_IS_ON = true /\
  cng_rate_supported (send_codec_spec (config_ this)) = false /\
  existsb fatal_step_failed (trace_of (SetupSendCodec this w)) = false.
Proof.
  revert w.
  change (ensures (SetupSendCodec this) (fun v tr =>
    v = None <->
    RTC_DCHECK_IS_ON = true /\
    cng_rate_supported (send_codec_spec (config_ this)) = false /\
    existsb fatal_step_failed tr = false)).
  unfold SetupSendCodec, cng_rate_supported. wp.
  all: cbn [existsb fatal_step_failed app].
  all: rewrite_tests; cbn [orb andb negb].
  all: split;
    [ intros E;
      first [discriminate E | repeat split; first [assumption | reflexivity]]
    | intros (Hon & Hrate & Hfail);
      first [reflexivity | discriminate Hrate | discriminate Hfail
            | match goal with
              | H : RTC_DCHECK_IS_ON && _ = false |- _ =>
                  rewrite Hon in H; discriminate H
              end ] ].
Qed.

(** ** Runs with the engine's state in view *)

Lemma holds_ret {A} (a : A) (w : W) (Q : option A -> list Event -> W -> Prop) :
  Q (Some a) [] w -> holds_after (ret a) w Q.
Proof. intros H. exact H. Qed.

Lemma holds_bind {A B} (m : M W A) (k : A -> M W B) (w : W)
    (Q : option B -> list Event -> W -> Prop) :
  holds_after m w (fun r t1 w1 =>
    match r with
    | Some a => holds_after (k a) w1 (fun r2 t2 w2 => Q r2 (t1 ++ t2) w2)
    | None => Q None t1 w1
    end) ->
  holds_after (bind m k) w Q.
Proof.
  unfold holds_after. cbn [bind Monad_M]. unfold M_bind.
  destruct (m w) as [a w1 t1 | w1 t1]; cbn; [|tauto].
  destruct (k a w1); cbn; tauto.
Qed.

Lemma holds_call {A} (method : W -> A * W) (ev : A -> Event) (w : W)
    (Q : option A -> list Event -> W -> Prop) :
  (forall a w', method w = (a, w') -> Q (Some a) [ev a] w') ->
  holds_after (call method ev) w Q.
Proof.
  intros H. unfold holds_after, call.
  destruct (method w) as [a w'] eqn:E. cbn. now apply H.
Qed.

Lemma holds_RTC_DCHECK (condition : bool) (w : W)
    (Q : option unit -> list Event -> W -> Prop) :
  (RTC_DCHECK_IS_ON && negb condition = false -> Q (Some tt) [] w) ->
  (RTC_DCHECK_IS_ON = true -> condition = false -> Q None [] w) ->
  holds_after (RTC_DCHECK condition) w Q.
Proof.
  intros Hok Hfail. unfold holds_after, RTC_DCHECK.
  destruct (RTC_DCHECK_IS_ON && negb condition) eqn:E; cbn.
  - apply andb_true_iff in E as [E1 E2]. apply Hfail; [exact E1|].
    now destruct condition.
  - now apply Hok.
Qed.

Lemma holds_and_then {B} (blk : M W (option B)) (rest : M W B) (w : W)
    (Q : option B -> list Event -> W -> Prop) :
  holds_after blk w (fun r t1 w1 =>
    match r with
    | Some (Some b) => Q (Some b) (t1 ++ []) w1
    | Some None => holds_after rest w1 (fun r2 t2 w2 => Q r2 (t1 ++ t2) w2)
    | None => Q None t1 w1
    end) ->
  holds_after (and_then blk rest) w Q.
Proof.
  intros H. unfold and_then. apply holds_bind.
  unfold holds_after in *. destruct (blk w) as [[b|] w1 t1 | w1 t1]; cbn in *;
    exact H.
Qed.

Lemma holds_and_then_block {B} (blk rest : M W (option B)) (w : W)
    (Q : option (option B) -> list Event -> W -> Prop) :
  holds_after blk w (fun r t1 w1 =>
    match r with
    | Some (Some b) => Q (Some (Some b)) (t1 ++ []) w1
    | Some None => holds_after rest w1 (fun r2 t2 w2 => Q r2 (t1 ++ t2) w2)
    | None => Q None t1 w1
    end) ->
  holds_after (and_then_block blk rest) w Q.
Proof.
  intros H. unfold and_then_block. apply holds_bind.
  unfold holds_after in *. destruct (blk w) as [[b|] w1 t1 | w1 t1]; cbn in *;
    exact H.
Qed.

Ltac run_step :=
  lazymatch goal with
  | |- holds_after (bind _ _) _ _ => apply holds_bind
  | |- holds_after (ret _) _ _ => apply holds_ret
  | |- holds_after (return_ _) _ _ => apply holds_ret
  | |- holds_after fallthrough _ _ => apply holds_ret
  | |- holds_after (call _ _) _ _ => apply holds_call; intros ? ? ?
  | |- holds_after (RTC_DCHECK _) _ _ =>
      apply holds_RTC_DCHECK; [intros ? | intros ? ?]
  | |- holds_after RTC_NOTREACHED _ _ =>
      apply holds_RTC_DCHECK; [intros ? | intros ? ?]
  | |- holds_after LOG_RTCERR2 _ _ => unfold LOG_RTCERR2
  | |- holds_after LOG_RTCERR3 _ _ => unfold LOG_RTCERR3
  | |- holds_after (and_then _ _) _ _ => apply holds_and_then
  | |- holds_after (and_then_block _ _) _ _ => apply holds_and_then_block
  | |- holds_after (if ?b then _ else _) _ _ => destruct b eqn:?
  | |- holds_after (let _ := _ in _) _ _ => cbv zeta
  end; cbv beta iota.

Ltac run := repeat run_step.

Section SendCodecKept.
Variable channel : Z.
Hypothesis Hkeep : keeps_send_codec channel.

Lemma kept_by_GetSendCodec c w a w' :
  GetSendCodec channel CodecInst_zero w = (a, w') ->
  send_codec_is channel c w -> send_codec_is channel c w'.
Proof.
  intros E H. destruct (Hkeep H) as (Hget & _). now rewrite E in Hget.
Qed.

Lemma kept_by_SetVADStatus c w enable rc w' :
  SetVADStatus channel enable w = (rc, w') ->
  send_codec_is channel c w -> send_codec_is channel c w'.
Proof.
  intros E H. destruct (Hkeep H) as (_ & Hvad & _).
  specialize (Hvad enable). now rewrite E in Hvad.
Qed.

Lemma kept_by_SetFECStatus c w enable rc w' :
  SetFECStatus channel enable w = (rc, w') ->
  send_codec_is channel c w -> send_codec_is channel c w'.
Proof.
  intros E H. destruct (Hkeep H) as (_ & _ & Hfec & _).
  specialize (Hfec enable). now rewrite E in Hfec.
Qed.

Lemma kept_by_SetOpusDtx c w enable rc w' :
  SetOpusDtx channel enable w = (rc, w') ->
  send_codec_is channel c w -> send_codec_is channel c w'.
Proof.
  intros E H. destruct (Hkeep H) as (_ & _ & _ & Hdtx & _).
  specialize (Hdtx enable). now rewrite E in Hdtx.
Qed.

Lemma kept_by_SetOpusMaxPlaybackRate c w rate rc w' :
  SetOpusMaxPlaybackRate channel rate w = (rc, w') ->
  send_codec_is channel c w -> send_codec_is channel c w'.
Proof.
  intros E H. destruct (Hkeep H) as (_ & _ & _ & _ & Hrate & _).
  specialize (Hrate rate). now rewrite E in Hrate.
Qed.

Lemma kept_by_SetSendCNPayloadType c w type f rc w' :
  SetSendCNPayloadType channel type f w = (rc, w') ->
  send_codec_is channel c w -> send_codec_is channel c w'.
Proof.
  intros E H. destruct (Hkeep H) as (_ & _ & _ & _ & _ & Hcn & _).
  specialize (Hcn type f). now rewrite E in Hcn.
Qed.

Lemma kept_by_LastError c w err w' :
  LastError w = (err, w') ->
  send_codec_is channel c w -> send_codec_is channel c w'.
Proof.
  intros E H. destruct (Hkeep H) as (_ & _ & _ & _ & _ & _ & Herr).
  now rewrite E in Herr.
Qed.

End SendCodecKept.

Ltac kept :=
  eauto 12 using kept_by_GetSendCodec, kept_by_SetVADStatus,
    kept_by_SetFECStatus, kept_by_SetOpusDtx, kept_by_SetOpusMaxPlaybackRate,
    kept_by_SetSendCNPayloadType, kept_by_LastError.

(** A run that returns true leaves the requested codec as the send codec. *)
Lemma SetupSendCodec_leaves_codec_set (this : AudioSendStream) (w : W) :
  keeps_send_codec (voe_channel_id (config_ this)) ->
  set_send_codec_takes (voe_channel_id (config_ this)) ->
  holds_after (SetupSendCodec this) w (fun v _ w' =>
    v = Some true ->
    send_codec_is (voe_channel_id (config_ this))
                  (codec_inst (send_codec_spec (config_ this))) w').
Proof.
  intros Hkeep Htake. unfold SetupSendCodec.
  do 7 run_step.
  match goal with
  | E : GetSendCodec _ _ ?w0 = (?a, ?w1) |- _ =>
      assert (Hbase :
        negb (fst a =? 0) ||
        CodecInst_neq (codec_inst (send_codec_spec (config_ this))) (snd a)
        = false ->
        send_codec_is (voe_channel_id (config_ this))
                      (codec_inst (send_codec_spec (config_ this))) w1)
  end.
  { intros Hsame. apply orb_false_iff in Hsame as [Hrc Hcodec].
    apply negb_false_iff, Z.eqb_eq in Hrc.
    apply CodecInst_neq_false_iff in Hcodec.
    eapply kept_by_GetSendCodec; [exact Hkeep | eassumption |].
    unfold send_codec_is.
    match goal with E : GetSendCodec _ _ _ = _ |- _ => rewrite E end.
    destruct a1 as [rc current]. cbn in *. now subst. }
  all: run.
  all: intros Hv; try discriminate Hv.
  all: try match goal with
       | E : SetSendCodec _ ?c ?w0 = (?rc, ?w1), H : (?rc =? -1) = false |- _ =>
           assert (send_codec_is (voe_channel_id (config_ this)) c w1)
             by (pose proof (Htake c w0) as Ht; rewrite E in Ht; cbn in Ht;
                 apply Ht; now apply Z.eqb_neq)
       end.
  all: try match goal with
       | H : negb _ || _ = false |- _ => specialize (Hbase H)
       end.
  all: kept.
Qed.

(** With the requested codec as the send codec, a run does not set it. *)
Lemma SetupSendCodec_skips_set_codec (this : AudioSendStream) (w : W) :
  keeps_send_codec (voe_channel_id (config_ this)) ->
  send_codec_is (voe_channel_id (config_ this))
                (codec_inst (send_codec_spec (config_ this))) w ->
  holds_after (SetupSendCodec this) w (fun _ tr _ => set_codec_calls tr = []).
Proof.
  intros Hkeep Hw. unfold SetupSendCodec.
  do 7 run_step.
  match goal with
  | E : GetSendCodec _ _ ?w0 = (?a, ?w1) |- _ =>
      assert (Hquery : a = (0, codec_inst (send_codec_spec (config_ this))))
  end.
  { match goal with
    | E : GetSendCodec _ _ ?w0 = _ |- _ =>
        assert (Hw0 : send_codec_is (voe_channel_id (config_ this))
                        (codec_inst (send_codec_spec (config_ this))) w0)
          by kept;
        unfold send_codec_is in Hw0; rewrite E in Hw0; exact Hw0
    end. }
  subst a1. cbn [fst snd].
  replace (CodecInst_neq (codec_inst (send_codec_spec (config_ this)))
             (codec_inst (send_codec_spec (config_ this)))) with false
    by (symmetry; now apply CodecInst_neq_false_iff).
  cbn [Z.eqb negb orb].
  all: run; reflexivity.
Qed.

(** X7.  On a channel where only SetSendCodec changes the send codec (no
    other call of SetupSendCodec does, the LastError query included), and
    where a SetSendCodec that does not fail takes effect, configuring the
    same stream again after a run that returned true makes no
    SetSendCodec call. *)
Theorem SetupSendCodec_again_sets_no_codec (this : AudioSendStream) (w : W) :
  keeps_send_codec (voe_channel_id (config_ this)) ->
  set_send_codec_takes (voe_channel_id (config_ this)) ->
  value_of (SetupSendCodec this w) = Some true ->
  set_codec_calls
    (trace_of (SetupSendCodec this (state_of (SetupSendCodec this w)))) = [].
Proof.
  intros Hkeep Htake Htrue.
  pose proof (@SetupSendCodec_leaves_codec_set this w Hkeep Htake) as Hleft.
  unfold holds_after in Hleft. specialize (Hleft Htrue).
  exact (@SetupSendCodec_skips_set_codec this _ Hkeep Hleft).
Qed.

(** ** More about the constructor *)

Lemma extension_calls_app (t1 t2 : list Event) :
  extension_calls (t1 ++ t2) = extension_calls t1 ++ extension_calls t2.
Proof. apply flat_map_app. Qed.

(** The loop over the extensions: one call for each extension with a URI
    the code knows; at one it does not know the loop ends the run where the
    checks are in, and goes on to the next extension where they are out. *)
Lemma register_extensions_outcome (exts : list RtpExtension.t) :
  ensures (register_extensions exts) (fun v tr =>
    Forall (fun e => is_codec_call e = false) tr /\
    (RTC_DCHECK_IS_ON = false \/ forallb recognised exts = true ->
     v = Some tt /\
     extension_calls tr = map enabled (filter recognised exts)) /\
    (RTC_DCHECK_IS_ON = true -> forallb recognised exts = false -> v = None)).
Proof.
  induction exts as [|extension rest IH];
    cbn [register_extensions forallb filter].
  - apply ensures_ret. repeat split; [constructor | discriminate].
  - assert (Hrec : recognised extension =
             (String.eqb (RtpExtension.uri extension) kAbsSendTimeUri ||
              String.eqb (RtpExtension.uri extension) kAudioLevelUri ||
              String.eqb (RtpExtension.uri extension)
                kTransportSequenceNumberUri)) by reflexivity.
    assert (Hext : enabled extension =
             ((if String.eqb (RtpExtension.uri extension) kAbsSendTimeUri
               then AbsoluteSenderTime
               else if String.eqb (RtpExtension.uri extension) kAudioLevelUri
               then AudioLevelIndication
               else TransportSequenceNumber),
              true, RtpExtension.id extension)) by reflexivity.
    wp.
    all: repeat match goal with
                | H : String.eqb _ _ = _ |- _ =>
                    rewrite H in Hrec; rewrite ?H in Hext; clear H
                end.
    all: cbn [orb] in Hrec; rewrite ?orb_true_r in Hrec; rewrite Hrec.
    all: cbn [andb map].
    5: { split; [apply Forall_nil|].
         split; [intros [Hoff | Habsurd]; congruence | reflexivity]. }
    all: eapply ensures_weaken; [exact IH|].
    all: intros v tr (Hcodec & Hok & Hfail).
    all: rewrite ?extension_calls_app; cbn [extension_calls flat_map app].
    all: (split; [repeat constructor; exact Hcodec|]).
    1-3: (split; [intros Hcase; destruct (Hok Hcase) as [-> ->];
                  rewrite Hext; split; reflexivity | exact Hfail]).
    split; [|intros Hon; rewrite Hon in *; discriminate].
    intros [Hoff | Habsurd]; [|discriminate Habsurd].
    exact (Hok (or_introl Hoff)).
Qed.

Lemma SetupSendCodec_no_extension_calls (this : AudioSendStream) :
  ensures (SetupSendCodec this) (fun _ tr => extension_calls tr = []).
Proof. unfold SetupSendCodec. wp; reflexivity. Qed.

(** X8.  Where the checks are compiled out, or the channel id is not -1
    and every extension has a URI the code knows, the header-extension
    calls of construction are, in the order of the configuration, one for
    each extension with a known URI: the call for the header extension the
    URI names, enabling it, with the configuration's id.  Extensions with
    another URI are passed over, and no header extension is switched
    off. *)
Theorem AudioSendStream_new_enables_extensions (config : Config)
    (congestion_controller : CongestionController) (event_log : Handle)
    (w : W) :
  RTC_DCHECK_IS_ON = false \/
  voe_channel_id config <> -1 /\
  forallb recognised (extensions (rtp config)) = true ->
  extension_calls
    (trace_of (AudioSendStream_new config congestion_controller event_log w))
  = map enabled (filter recognised (extensions (rtp config))).
Proof.
  intros Hcase. revert w.
  change (ensures (AudioSendStream_new config congestion_controller event_log)
    (fun _ tr =>
       extension_calls tr =
       map enabled (filter recognised (extensions (rtp config))))).
  unfold AudioSendStream_new. cbv zeta. cbn [config_].
  apply ensures_bind, ensures_RTC_DCHECK.
  2: { intros Hon Hcond. apply negb_false_iff, Z.eqb_eq in Hcond.
       destruct Hcase as [Hoff | [Hid _]]; [congruence | contradiction]. }
  intros _. wp.
  eapply ensures_weaken; [exact (register_extensions_outcome _)|].
  intros v t1 (_ & Hok & _).
  assert (Hloop : RTC_DCHECK_IS_ON = false \/
                  forallb recognised (extensions (rtp config)) = true)
    by (destruct Hcase as [Hoff | [_ Hall]]; [left | right]; assumption).
  destruct (Hok Hloop) as [-> Hids].
  apply ensures_bind.
  eapply ensures_weaken; [exact (SetupSendCodec_no_extension_calls _)|].
  intros [b|] t2 Ht2; [apply ensures_ret|].
  all: rewrite ?extension_calls_app, Hids, Ht2; cbn; now rewrite ?app_nil_r.
Qed.

(** X9.  In a build with the checks, an extension with a URI the code has
    no branch for ends construction before the send codec is set up: the
    constructor does not return and makes no VoECodec call. *)
Theorem AudioSendStream_new_unknown_extension_is_fatal (config : Config)
    (congestion_controller : CongestionController) (event_log : Handle)
    (w : W) :
  RTC_DCHECK_IS_ON = true ->
  forallb recognised (extensions (rtp config)) = false ->
  let r := AudioSendStream_new config congestion_controller event_log w in
  value_of r = None /\
  Forall (fun e => is_codec_call e = false) (trace_of r).
Proof.
  intros Hon Hunknown. cbv zeta. revert w.
  change (ensures (AudioSendStream_new config congestion_controller event_log)
    (fun v tr => v = None /\ Forall (fun e => is_codec_call e = false) tr)).
  unfold AudioSendStream_new. cbv zeta. cbn [config_].
  apply ensures_bind, ensures_RTC_DCHECK.
  2: { intros _ _. split; [reflexivity | constructor]. }
  intros _. wp.
  eapply ensures_weaken; [exact (register_extensions_outcome _)|].
  intros v t1 (Hcodec & _ & Hfail).
  rewrite (Hfail Hon Hunknown). cbn [app].
  split; [reflexivity | repeat constructor; exact Hcodec].
Qed.

(** X10.  Construction returns the stream, holding the configuration it
    was given, whether or not SetupSendCodec succeeded: always where the
    checks are compiled out, and with them whenever the channel id is not
    -1, every extension URI is known and the comfort-noise clock rate is
    one the code has a case for. *)
Theorem AudioSendStream_new_returns_despite_codec_failure (config : Config)
    (congestion_controller : CongestionController) (event_log : Handle)
    (w : W) :
  RTC_DCHECK_IS_ON = false \/
  voe_channel_id config <> -1 /\
  forallb recognised (extensions (rtp config)) = true /\
  cng_rate_supported (send_codec_spec config) = true ->
  value_of (AudioSendStream_new config congestion_controller event_log w)
  = Some {| config_ := config |}.
Proof.
  intros Hcase. revert w.
  change (ensures (AudioSendStream_new config congestion_controller event_log)
    (fun v _ => v = Some {| config_ := config |})).
  unfold AudioSendStream_new. cbv zeta. cbn [config_].
  apply ensures_bind, ensures_RTC_DCHECK.
  2: { intros Hon Hcond. apply negb_false_iff, Z.eqb_eq in Hcond.
       destruct Hcase as [Hoff | [Hid _]]; [congruence | contradiction]. }
  intros _. wp.
  eapply ensures_weaken; [exact (register_extensions_outcome _)|].
  intros v t1 (_ & Hok & _).
  assert (Hloop : RTC_DCHECK_IS_ON = false \/
                  forallb recognised (extensions (rtp config)) = true)
    by (destruct Hcase as [Hoff | (_ & Hall & _)]; [left | right]; assumption).
  destruct (Hok Hloop) as [-> _].
  apply ensures_bind.
  eapply ensures_weaken;
    [exact (SetupSendCodec_abort_needs_unsupported_rate _)|].
  intros [b|] t2 Hout; [now apply ensures_ret|].
  destruct (Hout eq_refl) as (Hon & Hrate). cbn [config_] in Hrate.
  destruct Hcase as [Hoff | (_ & _ & Hsupported)]; congruence.
Qed.

(** ** More about Start and OnBitrateUpdated *)

(** X11.  In a build with the checks, Start on a stream whose maximum
    bitrate is below its minimum (neither being -1) stops at the check:
    the stream is not registered with the allocator, the channel is not
    started, and the engine is left as it was. *)
Theorem Start_inverted_bounds_is_fatal (this : AudioSendStream) (w : W) :
  RTC_DCHECK_IS_ON = true ->
  min_bitrate_kbps (config_ this) <> -1 ->
  max_bitrate_kbps (config_ this) <> -1 ->
  max_bitrate_kbps (config_ this) < min_bitrate_kbps (config_ this) ->
  Start this w = Fatal w [].
Proof.
  intros Hon Hmin Hmax Hless.
  unfold Start, RTC_DCHECK. cbn [bind ret Monad_M]. unfold M_bind.
  apply Z.eqb_neq in Hmin, Hmax. rewrite Hmin, Hmax, Hon. cbn [negb andb].
  replace (max_bitrate_kbps (config_ this) >=? min_bitrate_kbps (config_ this))
    with false by (symmetry; rewrite Z.geb_leb; apply Z.leb_gt; exact Hless).
  reflexivity.
Qed.

(** X12.  For a stream whose bounds satisfy 0 <= min <= max kbps, with the
    maximum in bps fitting an [int], a bitrate that is at least the
    minimum is set on the channel within the bounds: the bitrate handed to
    SetBitrate is at least min * 1000 and at most max * 1000. *)
Theorem OnBitrateUpdated_within_bounds (this : AudioSendStream)
    (bitrate_bps fraction_loss rtt : Z) (w : W) :
  0 <= min_bitrate_kbps (config_ this) <= max_bitrate_kbps (config_ this) ->
  max_bitrate_kbps (config_ this) * 1000 < 2 ^ 31 ->
  min_bitrate_kbps (config_ this) * 1000 <= bitrate_bps ->
  exists applied,
    bitrate_calls
      (trace_of (OnBitrateUpdated this bitrate_bps fraction_loss rtt w))
    = [applied] /\
    min_bitrate_kbps (config_ this) * 1000 <= applied <=
    max_bitrate_kbps (config_ this) * 1000.
Proof.
  intros Hbounds Hfit Hmin.
  assert (Emin : to_uint32 (int_mul (min_bitrate_kbps (config_ this)) 1000) =
                 min_bitrate_kbps (config_ this) * 1000).
  { unfold int_mul. rewrite to_int32_small by lia. apply to_uint32_small. lia. }
  assert (Emax : to_uint32 (int_mul (max_bitrate_kbps (config_ this)) 1000) =
                 max_bitrate_kbps (config_ this) * 1000).
  { unfold int_mul. rewrite to_int32_small by lia. apply to_uint32_small. lia. }
  unfold OnBitrateUpdated, RTC_DCHECK. cbn [bind ret Monad_M].
  unfold M_bind, M_ret, call_void. rewrite Emin, Emax.
  replace (bitrate_bps >=? min_bitrate_kbps (config_ this) * 1000) with true
    by (symmetry; apply Z.geb_le; lia).
  rewrite andb_false_r. cbn [trace_of app bitrate_calls flat_map].
  eexists. split; [reflexivity|].
  destruct (Z.gtb_spec bitrate_bps (max_bitrate_kbps (config_ this) * 1000));
    lia.
Qed.

(** X13.  A bitrate below the configured minimum: where the checks are in,
    OnBitrateUpdated stops at its check and sets nothing on the channel;
    where they are out, it sets the bitrate as for any other, clamped to
    the maximum only, and returns 0. *)
Theorem OnBitrateUpdated_below_minimum (this : AudioSendStream)
    (bitrate_bps fraction_loss rtt : Z) (w : W) :
  bitrate_bps < to_uint32 (int_mul (min_bitrate_kbps (config_ this)) 1000) ->
  let r := OnBitrateUpdated this bitrate_bps fraction_loss rtt w in
  let max_bitrate_bps :=
    to_uint32 (int_mul (max_bitrate_kbps (config_ this)) 1000) in
  (RTC_DCHECK_IS_ON = true -> r = Fatal w []) /\
  (RTC_DCHECK_IS_ON = false ->
   value_of r = Some 0 /\
   bitrate_calls (trace_of r) = [Z.min bitrate_bps max_bitrate_bps]).
Proof.
  intros Hlow. cbv zeta.
  unfold OnBitrateUpdated, RTC_DCHECK. cbn [bind ret Monad_M].
  unfold M_bind, M_ret, call_void.
  replace (bitrate_bps >=?
           to_uint32 (int_mul (min_bitrate_kbps (config_ this)) 1000))
    with false by (symmetry; rewrite Z.geb_leb; apply Z.leb_gt; exact Hlow).
  split; intros ->; cbn [andb negb]; [reflexivity|].
  cbn [value_of trace_of app bitrate_calls flat_map]. split; [reflexivity|].
  destruct (Z.gtb_spec bitrate_bps
              (to_uint32 (int_mul (max_bitrate_kbps (config_ this)) 1000)));
    f_equal; lia.
Qed.

(** ** More about GetStats *)

(** The loop leaves the counters and the quality field alone. *)
Lemma report_blocks_loop_frame_counters (codec_inst : CodecInst)
    (blocks : list ReportBlock) (stats : Stats) :
  let stats' := report_blocks_loop codec_inst blocks stats in
  bytes_sent stats' = bytes_sent stats /\
  packets_sent stats' = packets_sent stats /\
  aec_quality_min stats' = aec_quality_min stats.
Proof.
  cbv zeta. rewrite report_blocks_loop_find.
  destruct (find _ blocks); [|tauto].
  cbv zeta. destruct (_ >? _); cbn; tauto.
Qed.

Ltac split_rtt :=
  match goal with
  | |- context [rttMs ?cs >? 0] => destruct (rttMs cs >? 0)
  end.

(** X14.  GetStats only asks: every call of a run is a query (RTCP
    statistics, send codec, remote report blocks, speech level, echo
    metrics, typing noise); it sets, registers, starts and stops nothing. *)
Theorem GetStats_only_queries (this : AudioSendStream) (w : W) :
  Forall (fun e => is_query e = true) (trace_of (GetStats this w)).
Proof.
  revert w.
  change (ensures (GetStats this)
            (fun _ tr => Forall (fun e => is_query e = true) tr)).
  unfold GetStats. wp; cbn [app]; repeat constructor.
Qed.

(** X15.  Every snapshot GetStats returns carries the stream's SSRC, the
    bytes and packets sent that the channel reported, -1 as AEC quality,
    the speech level converted to [int32_t] and the typing-noise flag of
    the audio state: these do not depend on the send-codec query. *)
Theorem GetStats_fields_always_set (this : AudioSendStream) (w : W) :
  let r := GetStats this w in
  match value_of r with
  | Some stats =>
      exists call_stats level typing,
        reported_call_stats (trace_of r) = Some call_stats /\
        speech_level (trace_of r) = Some level /\
        typing_noise_answer (trace_of r) = Some typing /\
        local_ssrc stats = ssrc (rtp (config_ this)) /\
        bytes_sent stats = bytesSent call_stats /\
        packets_sent stats = packetsSent call_stats /\
        aec_quality_min stats = Some (-1)%Q /\
        audio_level stats = Some (to_int32 level) /\
        typing_noise_detected stats = Some typing
  | None => RTC_DCHECK_IS_ON = true
  end.
Proof.
  cbv zeta. revert w.
  change (ensures (GetStats this) (fun v tr =>
    match v with
    | Some stats =>
        exists call_stats level typing,
          reported_call_stats tr = Some call_stats /\
          speech_level tr = Some level /\
          typing_noise_answer tr = Some typing /\
          local_ssrc stats = ssrc (rtp (config_ this)) /\
          bytes_sent stats = bytesSent call_stats /\
          packets_sent stats = packetsSent call_stats /\
          aec_quality_min stats = Some (-1)%Q /\
          audio_level stats = Some (to_int32 level) /\
          typing_noise_detected stats = Some typing
    | None => RTC_DCHECK_IS_ON = true
    end)).
  unfold GetStats. wp.
  all: try assumption.
  all: match goal with
       | cs : CallStatistics, lvl : (Z * Z)%type, typing : bool |- _ =>
           exists cs, (snd lvl), typing
       end.
  all: split; [reflexivity|]; split; [reflexivity|]; split; [reflexivity|].
  all: cbn [local_ssrc bytes_sent packets_sent aec_quality_min audio_level
            typing_noise_detected
            set_typing_noise_detected set_echo_return_loss_enhancement
            set_echo_return_loss set_echo_delay_std_ms set_echo_delay_median_ms
            set_audio_level].
  all: rewrite ?(proj1 (report_blocks_loop_frame _ _ _)).
  all: rewrite ?(proj1 (report_blocks_loop_frame_counters _ _ _)).
  all: rewrite ?(proj1 (proj2 (report_blocks_loop_frame_counters _ _ _))).
  all: rewrite ?(proj2 (proj2 (report_blocks_loop_frame_counters _ _ _))).
  all: split_rtt; cbn; repeat split.
Qed.

(** X16.  The echo metrics of a snapshot follow the audio processing's
    answer to GetEcMetricsStatus: enabled, the delay median and deviation
    and the two return-loss values are those GetEcDelayMetrics and
    GetEchoMetrics answered; disabled, neither is called and the four
    fields stay unset. *)
Theorem GetStats_echo_metrics_gating (this : AudioSendStream) (w : W) :
  let r := GetStats this w in
  match value_of r with
  | Some stats =>
      match ec_metrics_status (trace_of r) with
      | Some true =>
          exists median std erl erle,
            ec_delay_metrics (trace_of r) = Some (median, std) /\
            echo_metrics (trace_of r) = Some (erl, erle) /\
            echo_delay_median_ms stats = Some median /\
            echo_delay_std_ms stats = Some std /\
            echo_return_loss stats = Some erl /\
            echo_return_loss_enhancement stats = Some erle
      | Some false =>
          ec_delay_metrics (trace_of r) = None /\
          echo_metrics (trace_of r) = None /\
          echo_delay_median_ms stats = None /\
          echo_delay_std_ms stats = None /\
          echo_return_loss stats = None /\
          echo_return_loss_enhancement stats = None
      | None => False
      end
  | None => RTC_DCHECK_IS_ON = true
  end.
Proof.
  cbv zeta. revert w.
  change (ensures (GetStats this) (fun v tr =>
    match v with
    | Some stats =>
        match ec_metrics_status tr with
        | Some true =>
            exists median std erl erle,
              ec_delay_metrics tr = Some (median, std) /\
              echo_metrics tr = Some (erl, erle) /\
              echo_delay_median_ms stats = Some median /\
              echo_delay_std_ms stats = Some std /\
              echo_return_loss stats = Some erl /\
              echo_return_loss_enhancement stats = Some erle
        | Some false =>
            ec_delay_metrics tr = None /\
            echo_metrics tr = None /\
            echo_delay_median_ms stats = None /\
            echo_delay_std_ms stats = None /\
            echo_return_loss stats = None /\
            echo_return_loss_enhancement stats = None
        | None => False
        end
    | None => RTC_DCHECK_IS_ON = true
    end)).
  unfold GetStats. wp.
  all: try assumption.
  all: cbn [ec_metrics_status ec_delay_metrics echo_metrics app].
  all: try (do 4 eexists; split; [reflexivity|]; split; [reflexivity|];
            cbn [echo_delay_median_ms echo_delay_std_ms echo_return_loss
                 echo_return_loss_enhancement set_typing_noise_detected
                 set_echo_return_loss_enhancement set_echo_return_loss
                 set_echo_delay_std_ms set_echo_delay_median_ms];
            repeat split; reflexivity).
  all: cbn [echo_delay_median_ms echo_delay_std_ms echo_return_loss
            echo_return_loss_enhancement set_typing_noise_detected
            set_audio_level].
  all: try match goal with
       | |- context [report_blocks_loop ?ci ?bl ?st] =>
           rewrite (report_blocks_loop_find ci bl st);
           destruct (find _ bl); cbv zeta;
           try destruct (int_div (plfreq ci) 1000 >? 0)
       end.
  all: split_rtt; cbn; repeat split.
Qed.

(** X17.  GetStats takes every answer of GetSendCodec other than -1 for a
    success, a positive result code included: the snapshot's codec name is
    then the name of the codec the query handed out. *)
Theorem GetStats_codec_name (this : AudioSendStream) (w : W) :
  let r := GetStats this w in
  match value_of r with
  | Some stats =>
      exists rc codec_inst,
        send_codec_query (trace_of r) = Some (rc, codec_inst) /\
        (rc <> -1 -> codec_name stats = Some (plname codec_inst)) /\
        (rc = -1 -> codec_name stats = None)
  | None => RTC_DCHECK_IS_ON = true
  end.
Proof.
  cbv zeta. revert w.
  change (ensures (GetStats this) (fun v tr =>
    match v with
    | Some stats =>
        exists rc codec_inst,
          send_codec_query tr = Some (rc, codec_inst) /\
          (rc <> -1 -> codec_name stats = Some (plname codec_inst)) /\
          (rc = -1 -> codec_name stats = None)
    | None => RTC_DCHECK_IS_ON = true
    end)).
  unfold GetStats. wp.
  all: try assumption.
  all: match goal with
       | got : (Z * CodecInst)%type |- _ => exists (fst got), (snd got)
       end.
  all: split; [reflexivity|].
  all: cbn [codec_name set_typing_noise_detected
            set_echo_return_loss_enhancement set_echo_return_loss
            set_echo_delay_std_ms set_echo_delay_median_ms set_audio_level].
  all: rewrite ?(proj2 (proj2 (report_blocks_loop_frame _ _ _))).
  all: bool_hyps.
  all: split_rtt; cbn; split; intros; first [reflexivity | contradiction].
Qed.

(** X18.  GetStats ends without a snapshot exactly when the checks are
    compiled in and an answer fails one of them: a send codec reported with
    payload type -1, or a result code other than 0 from the speech level,
    the echo-metrics status, the echo delay or the echo metrics; and no
    call is made after the failing answer. *)
Theorem GetStats_aborts_on_failed_check (this : AudioSendStream) (w : W) :
  let r := GetStats this w in
  (value_of r = None <->
   RTC_DCHECK_IS_ON = true /\
   existsb stats_check_failed (trace_of r) = true) /\
  (RTC_DCHECK_IS_ON = true ->
   calls_after stats_check_failed (trace_of r) = []).
Proof.
  cbv zeta. revert w.
  change (ensures (GetStats this) (fun v tr =>
    (v = None <->
     RTC_DCHECK_IS_ON = true /\ existsb stats_check_failed tr = true) /\
    (RTC_DCHECK_IS_ON = true -> calls_after stats_check_failed tr = []))).
  unfold GetStats. wp.
  all: cbn [existsb calls_after stats_check_failed app orb].
  all: repeat match goal with
              | H : RTC_DCHECK_IS_ON && _ = false |- _ =>
                  destruct RTC_DCHECK_IS_ON eqn:Hbuild;
                  [cbn [andb] in H | clear H]
              | H : true && _ = false |- _ => cbn [andb] in H
              end.
  all: repeat match goal with
              | H : negb (negb _) = _ |- _ => rewrite negb_involutive in H
              | H : negb _ = true |- _ => apply negb_true_iff in H
              | H : negb _ = false |- _ => apply negb_false_iff in H
              | H : negb _ && _ = _ |- _ => fail
              end.
  all: repeat match goal with
              | H : (?x =? ?y) = _ |- _ => rewrite ?H; revert H
              end; intros.
  all: cbn [orb andb negb].
  all: try match goal with H : false = true |- _ => discriminate H end.
  all: split;
    [ split;
      [ intros E; first [discriminate E | split; [assumption | reflexivity]
                        | split; reflexivity]
      | intros [Hon Hfail];
        first [reflexivity | discriminate Hon | discriminate Hfail] ]
    | intros Hon; first [reflexivity | discriminate Hon] ].
Qed.

(** X19.  When a snapshot carries a jitter, the codec the channel reported
    has a clock rate of at least 1000 Hz and the jitter is the first
    matching block's jitter in samples divided by the clock rate in kHz,
    rounded down: the division never has a zero divisor. *)
Theorem GetStats_jitter_rounds_down (this : AudioSendStream) (w : W) :
  let r := GetStats this w in
  match value_of r with
  | Some stats =>
      forall jitter, jitter_ms stats = Some jitter ->
      exists blocks rc codec_inst block,
        reported_blocks (trace_of r) = Some blocks /\
        send_codec_query (trace_of r) = Some (rc, codec_inst) /\
        find (fun block => source_SSRC block =? ssrc (rtp (config_ this)))
             blocks = Some block /\
        1000 <= plfreq codec_inst /\
        jitter * Z.quot (plfreq codec_inst) 1000 <= interarrival_jitter block
          < (jitter + 1) * Z.quot (plfreq codec_inst) 1000
  | None => RTC_DCHECK_IS_ON = true
  end.
Proof.
  cbv zeta. revert w.
  change (ensures (GetStats this) (fun v tr =>
    match v with
    | Some stats =>
        forall jitter, jitter_ms stats = Some jitter ->
        exists blocks rc codec_inst block,
          reported_blocks tr = Some blocks /\
          send_codec_query tr = Some (rc, codec_inst) /\
          find (fun block => source_SSRC block =? ssrc (rtp (config_ this)))
               blocks = Some block /\
          1000 <= plfreq codec_inst /\
          jitter * Z.quot (plfreq codec_inst) 1000 <= interarrival_jitter block
            < (jitter + 1) * Z.quot (plfreq codec_inst) 1000
    | None => RTC_DCHECK_IS_ON = true
    end)).
  unfold GetStats. wp.
  all: try assumption.
  all: cbn [reported_blocks send_codec_query app].
  all: split_rtt.
  all: try (cbn; intros jitter Habsurd; discriminate Habsurd).
  all: intros jitter.
  all: match goal with
       | |- context [report_blocks_loop ?ci ?bl ?st] =>
           pose proof (@report_fields_loop ci bl st eq_refl) as Hloop;
           cbn [local_ssrc set_codec_name set_aec_quality_min set_rtt_ms
                set_packets_sent set_bytes_sent set_local_ssrc] in Hloop;
           destruct (find _ bl) as [block|] eqn:Hfind;
           unfold report_fields in Hloop;
           injection Hloop as _ _ _ Hjitter;
           cbn [jitter_ms set_typing_noise_detected
                set_echo_return_loss_enhancement set_echo_return_loss
                set_echo_delay_std_ms set_echo_delay_median_ms set_audio_level];
           rewrite Hjitter; clear Hjitter
       end.
  all: try (intros Habsurd; discriminate Habsurd).
  all: unfold int_div.
  all: match goal with
       | |- context [?q >? 0] => destruct (Z.gtb_spec q 0) as [Hpos|Hnonpos]
       end.
  all: try (intros Habsurd; discriminate Habsurd).
  all: intros [= <-].
  all: match goal with
       | got : (Z * CodecInst)%type, bl : list ReportBlock |- _ =>
           exists bl, (fst got), (snd got), block
       end.
  all: split; [reflexivity|]; split; [reflexivity|]; split; [exact Hfind|].
  all: split.
  all: try match goal with
       | Hq : 0 < Z.quot ?p 1000 |- 1000 <= ?p =>
           destruct (Z.lt_ge_cases p 1000) as [Hlow|Hok]; [exfalso | exact Hok];
           pose proof (Z.quot_le_mono p 999 1000 ltac:(lia) ltac:(lia)) as Hle;
           change (Z.quot 999 1000) with 0 in Hle; lia
       end.
  all: split;
    [ rewrite Z.mul_comm; apply Z.mul_div_le; exact Hpos
    | rewrite Z.mul_comm; apply Z.mul_succ_div_gt; exact Hpos ].
Qed.

(** ** The strings for the log *)

Lemma string_append_assoc (a b c : string) :
  ((a ++ b) ++ c = a ++ (b ++ c))%string.
Proof. induction a as [|ch a IH]; cbn; [reflexivity | now rewrite IH]. Qed.

Lemma string_append_empty_r (a : string) : (a ++ "" = a)%string.
Proof. induction a as [|ch a IH]; cbn; [reflexivity | now rewrite IH]. Qed.

(** From index [i] on, the loop appends the remaining extensions joined by
    ", ". *)
Lemma extensions_loop_join (rest : list RtpExtension.t) :
  forall size i ss,
    0 <= i -> i + Z.of_nat (List.length rest) = size ->
    size < 2 ^ size_t_bits ->
    extensions_loop size i rest ss =
    (ss ++ String.concat ", " (map RtpExtension_ToString rest))%string.
Proof.
  induction rest as [|extension rest IH]; intros size i ss Hi Hsize Hfit.
  - cbn [extensions_loop map String.concat].
    now rewrite string_append_empty_r.
  - cbn [extensions_loop List.length map] in *.
    assert (Hlast : to_size_t (size - 1) = size - 1)
      by (unfold to_size_t; apply Z.mod_small; lia).
    assert (Hnext : to_size_t (i + 1) = i + 1)
      by (unfold to_size_t; apply Z.mod_small; lia).
    rewrite Hlast, Hnext.
    destruct rest as [|next rest].
    + cbn [List.length] in Hsize.
      replace (i =? size - 1) with true by (symmetry; apply Z.eqb_eq; lia).
      cbn [negb extensions_loop map String.concat].
      reflexivity.
    + replace (i =? size - 1) with false
        by (symmetry; apply Z.eqb_neq; cbn [List.length] in Hsize; lia).
      cbn [negb]. rewrite (IH size (i + 1)) by (cbn [List.length] in *; lia).
      cbn [String.concat map]. now rewrite !string_append_assoc.
Qed.

(** X20.  For a list of extensions whose length fits a [size_t],
    [Config::Rtp::ToString] prints the extensions separated by ", ", with
    no separator after the last one and nothing between the brackets for an
    empty list. *)
Theorem Rtp_ToString_joins_extensions (rtp : Rtp) :
  Z.of_nat (List.length (extensions rtp)) < 2 ^ size_t_bits ->
  Rtp_ToString rtp =
  ("{ssrc: " ++ show_int (ssrc rtp) ++ ", extensions: [" ++
   String.concat ", " (map RtpExtension_ToString (extensions rtp)) ++
   "], nack: " ++ NackConfig_ToString (nack rtp) ++
   ", c_name: " ++ c_name rtp ++ "}")%string.
Proof.
  intros Hfit. unfold Rtp_ToString. cbv zeta.
  rewrite extensions_loop_join by lia.
  rewrite !string_append_assoc. reflexivity.
Qed.

End Stream.

(** ** The theorems on concrete runs *)

Import Runs.

(** iSAC with comfort noise at its own clock rate on a fresh channel: the
    run returns true and leaves VAD enabled. *)
Lemma SetupSendCodec_vad_gating_witness :
  value_of (SetupSendCodec false isac_cn_stream Mock.fresh) = Some true /\
  vad_enabled (trace_of (SetupSendCodec false isac_cn_stream Mock.fresh)) = true.
Proof.
  assert (Hrun : value_of (SetupSendCodec false isac_cn_stream Mock.fresh)
                 = Some true) by reflexivity.
  split; [exact Hrun|].
  apply (SetupSendCodec_vad_gating false isac_cn_stream Mock.fresh Hrun).
  repeat split. discriminate.
Defined.

(** C2 as stated fails without a comfort-noise payload type: the run
    returns true, the clock rates are equal and the codec has one channel,
    and VAD is not enabled. *)
Lemma SetupSendCodec_vad_needs_cng_payload_type :
  let spec := send_codec_spec (config_ isac_no_cn_stream) in
  let r := SetupSendCodec false isac_no_cn_stream Mock.fresh in
  ~ (value_of r = Some true ->
     (vad_enabled (trace_of r) = true <->
      cng_plfreq spec = plfreq (codec_inst spec) /\
      channels (codec_inst spec) = 1)).
Proof.
  intros spec r Hclaim.
  assert (Hrun : value_of r = Some true) by reflexivity.
  destruct (Hclaim Hrun) as [_ Hif].
  assert (Hvad : vad_enabled (trace_of r) = true)
    by (apply Hif; split; reflexivity).
  discriminate Hvad.
Qed.

(** An allocation of 100 kbps to a stream bounded by 32 and 64 kbps: the
    channel is set to 64000 bps. *)
Lemma OnBitrateUpdated_clamps_witness :
  100000 >= to_uint32 (int_mul (min_bitrate_kbps (config_ isac_cn_stream)) 1000) /\
  value_of (OnBitrateUpdated true isac_cn_stream 100000 0 0 Mock.fresh) = Some 0 /\
  trace_of (OnBitrateUpdated true isac_cn_stream 100000 0 0 Mock.fresh) =
    [Call_SetBitrate 64000].
Proof.
  assert (Hmin : 100000 >=
            to_uint32 (int_mul (min_bitrate_kbps (config_ isac_cn_stream)) 1000))
    by (vm_compute; discriminate).
  split; [exact Hmin|].
  destruct (@OnBitrateUpdated_clamps _ _ true isac_cn_stream 100000 0 0
              Mock.fresh Hmin) as (Hvalue & _ & Hmore & _).
  split; [exact Hvalue|].
  apply Hmore. reflexivity.
Defined.

(** Bounds of 32 and 64 kbps: Start registers 32000 and 64000 bps. *)
Lemma Start_registers_unless_disabled_Stop_deregisters_witness :
  (true = true ->
   min_bitrate_kbps (config_ isac_cn_stream) <> -1 ->
   max_bitrate_kbps (config_ isac_cn_stream) <> -1 ->
   max_bitrate_kbps (config_ isac_cn_stream) >=
   min_bitrate_kbps (config_ isac_cn_stream)) /\
  - 2 ^ 31 <= min_bitrate_kbps (config_ isac_cn_stream) * 1000 < 2 ^ 31 /\
  - 2 ^ 31 <= max_bitrate_kbps (config_ isac_cn_stream) * 1000 < 2 ^ 31 /\
  (exists rc, trace_of (Start true isac_cn_stream Mock.fresh) =
     [Call_AddObserver 32000 64000 0 true; Call_StartSend 1 rc]) /\
  (exists rc, trace_of (Stop isac_cn_stream Mock.fresh) =
     [Call_RemoveObserver; Call_StopSend 1 rc]).
Proof.
  assert (Hcheck : true = true ->
            min_bitrate_kbps (config_ isac_cn_stream) <> -1 ->
            max_bitrate_kbps (config_ isac_cn_stream) <> -1 ->
            max_bitrate_kbps (config_ isac_cn_stream) >=
            min_bitrate_kbps (config_ isac_cn_stream))
    by (intros _ _ _; vm_compute; discriminate).
  assert (Hmin : - 2 ^ 31 <=
            min_bitrate_kbps (config_ isac_cn_stream) * 1000 < 2 ^ 31)
    by (vm_compute; split; [discriminate | reflexivity]).
  assert (Hmax : - 2 ^ 31 <=
            max_bitrate_kbps (config_ isac_cn_stream) * 1000 < 2 ^ 31)
    by (vm_compute; split; [discriminate | reflexivity]).
  destruct (@Start_registers_unless_disabled_Stop_deregisters _ _ _ true
              isac_cn_stream Mock.fresh Hcheck Hmin Hmax)
    as ((_ & Hreg & _) & _ & Hstop).
  split; [exact Hcheck|]. split; [exact Hmin|]. split; [exact Hmax|].
  split; [|exact Hstop].
  apply Hreg. split; discriminate.
Defined.

(** C5 as stated fails for bounds of -2 kbps: Start registers the stream
    although neither bound is at least 0. *)
Lemma Start_registers_negative_bounds :
  let this := {| config_ := negative_config |} in
  ~ ((exists min max pad enforce,
        In (Call_AddObserver min max pad enforce)
           (trace_of (Start false this Mock.fresh))) <->
     0 <= min_bitrate_kbps (config_ this) /\
     0 <= max_bitrate_kbps (config_ this)).
Proof.
  intros this [Honly_if _].
  destruct Honly_if as [Hmin _].
  - exists (-2000), (-2000), 0, true. left. reflexivity.
  - apply Hmin. reflexivity.
Qed.

(** C7 as stated fails for a channel that reports an RTT of -1: the value
    is not 0, and the snapshot's round-trip time is unset all the same. *)
Lemma GetStats_rtt_unset_when_negative :
  let reported := rttMs (Mock.call_statistics reporting_channel) in
  ~ (reported <> 0 ->
     option_map rtt_ms
       (value_of (GetStats false isac_cn_stream reporting_channel)) =
     Some (Some reported)).
Proof.
  intros reported Hclaim.
  assert (Hne : reported <> 0) by discriminate.
  specialize (Hclaim Hne). discriminate Hclaim.
Qed.

(** A history window of 5000 ms on channel 1: NACK is enabled with a
    window of 250 packets. *)
Lemma AudioSendStream_new_configures_nack_witness :
  (true = true -> voe_channel_id (config_ isac_cn_stream) <> -1) /\
  nack_calls
    (trace_of (AudioSendStream_new true "abs-send-time" "ssrc-audio-level"
                 "transport-wide-cc" (config_ isac_cn_stream)
                 congestion_controller 9%N Mock.fresh)) = [(true, 250)].
Proof.
  assert (Hid : true = true -> voe_channel_id (config_ isac_cn_stream) <> -1)
    by (intros _; discriminate).
  split; [exact Hid|].
  destruct (@AudioSendStream_new_configures_nack _ _ _ _ true "abs-send-time"
              "ssrc-audio-level" "transport-wide-cc" (config_ isac_cn_stream)
              congestion_controller 9%N Mock.fresh Hid)
    as (enable & window & Hcalls & Henable & Hwindow).
  rewrite Hcalls, Hwindow.
  replace enable with true; [reflexivity|].
  symmetry. apply Henable. discriminate.
Defined.

(** C9 as stated fails for a history window of -20 ms: NACK is enabled
    although the window is not greater than 0. *)
Lemma AudioSendStream_new_enables_nack_for_negative_window :
  ~ (forall enable window,
       In (enable, window)
          (nack_calls
             (trace_of (AudioSendStream_new false "abs-send-time"
                          "ssrc-audio-level" "transport-wide-cc"
                          negative_config congestion_controller 9%N
                          Mock.fresh))) ->
       (enable = true <-> rtp_history_ms (nack (rtp negative_config)) > 0)).
Proof.
  intros Hclaim.
  assert (Hin : In (true, -1)
            (nack_calls
               (trace_of (AudioSendStream_new false "abs-send-time"
                            "ssrc-audio-level" "transport-wide-cc"
                            negative_config congestion_controller 9%N
                            Mock.fresh)))) by (left; reflexivity).
  destruct (Hclaim true (-1) Hin) as [Hpos _].
  specialize (Hpos eq_refl). discriminate Hpos.
Qed.

(** A channel without a send codec that holds two reports for the stream's
    SSRC: the codec name and the report fields stay unset. *)
Lemma GetStats_codec_query_failure_witness :
  send_codec_query (trace_of (GetStats false isac_cn_stream reporting_channel))
    = Some (-1, CodecInst_zero) /\
  reported_blocks (trace_of (GetStats false isac_cn_stream reporting_channel))
    = None /\
  option_map report_fields
    (value_of (GetStats false isac_cn_stream reporting_channel))
    = Some (None, None, None, None).
Proof.
  assert (Hquery :
    send_codec_query (trace_of (GetStats false isac_cn_stream reporting_channel))
      = Some (-1, CodecInst_zero)) by reflexivity.
  split; [exact Hquery|].
  destruct (GetStats_codec_query_failure false isac_cn_stream reporting_channel
              Hquery) as [Hblocks Hstats].
  split; [exact Hblocks|].
  destruct (value_of (GetStats false isac_cn_stream reporting_channel))
    as [stats|]; [|discriminate Hstats].
  destruct Hstats as (_ & Hlost & Hfraction & Hseqnum & Hjitter).
  cbn [option_map]. unfold report_fields.
  now rewrite Hlost, Hfraction, Hseqnum, Hjitter.
Defined.

(** ** More runs *)

(** Configuring the same codec twice sets it once: the second run finds it
    active. *)
Example SetupSendCodec_twice_sets_codec_once :
  let first := SetupSendCodec false isac_cn_stream Mock.fresh in
  let second := SetupSendCodec false isac_cn_stream (state_of first) in
  set_codec_calls (trace_of first) = [(1, isac)] /\
  set_codec_calls (trace_of second) = [].
Proof. split; reflexivity. Qed.

(** On a channel that is sending, the comfort-noise registration fails and
    the run still enables VAD and returns true. *)
Example SetupSendCodec_tolerates_failed_registration :
  let r := SetupSendCodec true isac_cn_stream sending_channel in
  cn_calls (trace_of r) = [(105, kFreq16000Hz, -1)] /\
  vad_requests (trace_of r) = [false; true] /\
  value_of r = Some true.
Proof. repeat split; reflexivity. Qed.

(** The same run call by call: LastError is asked after the registration
    that failed, and the run goes on to VAD. *)
Example SetupSendCodec_failed_registration_calls :
  trace_of (SetupSendCodec true isac_cn_stream sending_channel) =
  [Call_SetVADStatus 1 false 0; Call_SetFECStatus 1 false 0;
   Call_GetSendCodec 1 (-1) CodecInst_zero; Call_SetSendCodec 1 isac 0;
   Call_SetSendCNPayloadType 1 105 kFreq16000Hz (-1); Call_LastError (-1);
   Call_SetVADStatus 1 true 0].
Proof. reflexivity. Qed.

(** A comfort-noise clock rate of 48000 Hz: false without the checks, the
    end of the run with them. *)
Example SetupSendCodec_unsupported_cng_rate :
  let this := {| config_ := make_config 0 32 64 (make_spec isac 105 48000) |} in
  value_of (SetupSendCodec false this Mock.fresh) = Some false /\
  value_of (SetupSendCodec true this Mock.fresh) = None.
Proof. split; reflexivity. Qed.

(** "OPUS" is Opus; iSAC gets no Opus call although the configuration asks
    for DTX and a playback rate. *)
Example SetupSendCodec_opus_calls :
  filter is_opus_call (trace_of (SetupSendCodec false opus_stream Mock.fresh)) =
    [Call_SetOpusDtx 1 true 0; Call_SetOpusMaxPlaybackRate 1 16000 0] /\
  filter is_opus_call
    (trace_of (SetupSendCodec false isac_cn_stream Mock.fresh)) = [].
Proof. split; reflexivity. Qed.

(** Of the three reports the channel holds, the first for SSRC 1234 is the
    one in the snapshot; 320 samples of jitter at 16 kHz are 20 ms. *)
Example GetStats_takes_first_matching_block :
  option_map report_fields
    (value_of (GetStats true isac_cn_stream reporting_isac_channel)) =
  Some (Some 7, Some (Q8ToFloat 64), Some 900, Some 20).
Proof. reflexivity. Qed.

(** ** The further theorems on concrete runs *)

Import MoreRuns.

(** The mock channel changes its send codec in SetSendCodec only, and a
    SetSendCodec it accepts takes effect. *)
Lemma Mock_send_codec_is (channel : Z) (c : CodecInst) (w : Mock.World) :
  send_codec_is channel c w <-> Mock.send_codec w = Some c.
Proof.
  unfold send_codec_is. cbn.
  destruct (Mock.send_codec w) as [active|]; cbn; split;
    intros E; congruence.
Qed.

Lemma Mock_keeps_send_codec (channel : Z) :
  keeps_send_codec (W := Mock.World) channel.
Proof.
  intros c w Hc. apply Mock_send_codec_is in Hc.
  repeat split; intros; apply Mock_send_codec_is; cbn.
  - rewrite Hc. exact Hc.
  - exact Hc.
  - exact Hc.
  - destruct (Mock.opus_active w); exact Hc.
  - destruct (Mock.opus_active w); exact Hc.
  - destruct (Mock.sending w); exact Hc.
  - exact Hc.
Qed.

Lemma Mock_set_send_codec_takes (channel : Z) :
  set_send_codec_takes (W := Mock.World) channel.
Proof.
  intros c w. unfold send_codec_is. cbn.
  destruct (pltype c <? 0); cbn; [congruence | reflexivity].
Qed.

(** Configuring iSAC twice on a fresh mock channel: the second run sets no
    codec. *)
Lemma SetupSendCodec_again_sets_no_codec_witness :
  keeps_send_codec (W := Mock.World) (voe_channel_id (config_ isac_cn_stream)) /\
  set_send_codec_takes (W := Mock.World)
    (voe_channel_id (config_ isac_cn_stream)) /\
  value_of (SetupSendCodec false isac_cn_stream Mock.fresh) = Some true /\
  set_codec_calls
    (trace_of
       (SetupSendCodec false isac_cn_stream
          (state_of (SetupSendCodec false isac_cn_stream Mock.fresh)))) = [].
Proof.
  assert (Hrun : value_of (SetupSendCodec false isac_cn_stream Mock.fresh)
                 = Some true) by reflexivity.
  assert (Hkeep : keeps_send_codec (W := Mock.World)
                    (voe_channel_id (config_ isac_cn_stream)))
    by apply Mock_keeps_send_codec.
  assert (Htake : set_send_codec_takes (W := Mock.World)
                    (voe_channel_id (config_ isac_cn_stream)))
    by apply Mock_set_send_codec_takes.
  split; [exact Hkeep|]. split; [exact Htake|]. split; [exact Hrun|].
  exact (SetupSendCodec_again_sets_no_codec false isac_cn_stream Mock.fresh
           Hkeep Htake Hrun).
Defined.

(** Three known extensions: ids 5, 3 and 1 are switched on, in that order. *)
Lemma AudioSendStream_new_enables_extensions_witness :
  (true = false \/
   voe_channel_id known_extensions_config <> -1 /\
   forallb (recognised kAbsSendTimeUri kAudioLevelUri
              kTransportSequenceNumberUri)
           (extensions (rtp known_extensions_config)) = true) /\
  extension_calls
    (trace_of
       (AudioSendStream_new true kAbsSendTimeUri kAudioLevelUri
          kTransportSequenceNumberUri known_extensions_config
          congestion_controller 9%N Mock.fresh)) =
  [(TransportSequenceNumber, true, 5); (AbsoluteSenderTime, true, 3);
   (AudioLevelIndication, true, 1)].
Proof.
  assert (Hcase : true = false \/
            voe_channel_id known_extensions_config <> -1 /\
            forallb (recognised kAbsSendTimeUri kAudioLevelUri
                       kTransportSequenceNumberUri)
                    (extensions (rtp known_extensions_config)) = true)
    by (right; split; [discriminate | reflexivity]).
  split; [exact Hcase|].
  exact (@AudioSendStream_new_enables_extensions _ _ _ _ true kAbsSendTimeUri
           kAudioLevelUri kTransportSequenceNumberUri known_extensions_config
           congestion_controller 9%N Mock.fresh Hcase).
Defined.

(** An extension with the URI "toffset" in a build with the checks:
    construction stops there. *)
Lemma AudioSendStream_new_unknown_extension_is_fatal_witness :
  true = true /\
  forallb (recognised kAbsSendTimeUri kAudioLevelUri
             kTransportSequenceNumberUri)
          (extensions (rtp unknown_extension_config)) = false /\
  value_of
    (AudioSendStream_new true kAbsSendTimeUri kAudioLevelUri
       kTransportSequenceNumberUri unknown_extension_config
       congestion_controller 9%N Mock.fresh) = None.
Proof.
  assert (Hunknown :
    forallb (recognised kAbsSendTimeUri kAudioLevelUri
               kTransportSequenceNumberUri)
            (extensions (rtp unknown_extension_config)) = false)
    by reflexivity.
  split; [reflexivity|]. split; [exact Hunknown|].
  exact (proj1 (@AudioSendStream_new_unknown_extension_is_fatal _ _ _ _ true
                  kAbsSendTimeUri kAudioLevelUri kTransportSequenceNumberUri
                  unknown_extension_config congestion_controller 9%N
                  Mock.fresh eq_refl Hunknown)).
Defined.

(** A codec the channel rejects: SetupSendCodec returns false, and the
    constructor returns the stream all the same. *)
Lemma AudioSendStream_new_returns_despite_codec_failure_witness :
  (true = false \/
   voe_channel_id rejected_codec_config <> -1 /\
   forallb (recognised kAbsSendTimeUri kAudioLevelUri
              kTransportSequenceNumberUri)
           (extensions (rtp rejected_codec_config)) = true /\
   cng_rate_supported (send_codec_spec rejected_codec_config) = true) /\
  value_of (SetupSendCodec true {| config_ := rejected_codec_config |}
              Mock.fresh) = Some false /\
  value_of
    (AudioSendStream_new true kAbsSendTimeUri kAudioLevelUri
       kTransportSequenceNumberUri rejected_codec_config
       congestion_controller 9%N Mock.fresh)
  = Some {| config_ := rejected_codec_config |}.
Proof.
  assert (Hcase : true = false \/
            voe_channel_id rejected_codec_config <> -1 /\
            forallb (recognised kAbsSendTimeUri kAudioLevelUri
                       kTransportSequenceNumberUri)
                    (extensions (rtp rejected_codec_config)) = true /\
            cng_rate_supported (send_codec_spec rejected_codec_config) = true)
    by (right; split; [discriminate | split; reflexivity]).
  split; [exact Hcase|]. split; [reflexivity|].
  exact (@AudioSendStream_new_returns_despite_codec_failure _ _ _ _ true
           kAbsSendTimeUri kAudioLevelUri kTransportSequenceNumberUri
           rejected_codec_config congestion_controller 9%N Mock.fresh Hcase).
Defined.

(** Bounds of 64 and 32 kbps in a build with the checks. *)
Lemma Start_inverted_bounds_is_fatal_witness :
  true = true /\
  min_bitrate_kbps (config_ inverted_bounds_stream) <> -1 /\
  max_bitrate_kbps (config_ inverted_bounds_stream) <> -1 /\
  max_bitrate_kbps (config_ inverted_bounds_stream) <
  min_bitrate_kbps (config_ inverted_bounds_stream) /\
  Start true inverted_bounds_stream Mock.fresh = Fatal Mock.fresh [].
Proof.
  assert (Hmin : min_bitrate_kbps (config_ inverted_bounds_stream) <> -1)
    by discriminate.
  assert (Hmax : max_bitrate_kbps (config_ inverted_bounds_stream) <> -1)
    by discriminate.
  assert (Hless : max_bitrate_kbps (config_ inverted_bounds_stream) <
                  min_bitrate_kbps (config_ inverted_bounds_stream))
    by reflexivity.
  split; [reflexivity|]. split; [exact Hmin|]. split; [exact Hmax|].
  split; [exact Hless|].
  exact (@Start_inverted_bounds_is_fatal _ _ _ true inverted_bounds_stream
           Mock.fresh eq_refl Hmin Hmax Hless).
Defined.

(** An allocation of 48 kbps to a stream bounded by 32 and 64 kbps. *)
Lemma OnBitrateUpdated_within_bounds_witness :
  0 <= min_bitrate_kbps (config_ isac_cn_stream) <=
  max_bitrate_kbps (config_ isac_cn_stream) /\
  max_bitrate_kbps (config_ isac_cn_stream) * 1000 < 2 ^ 31 /\
  min_bitrate_kbps (config_ isac_cn_stream) * 1000 <= 48000 /\
  exists applied,
    bitrate_calls
      (trace_of (OnBitrateUpdated true isac_cn_stream 48000 0 0 Mock.fresh))
    = [applied] /\
    min_bitrate_kbps (config_ isac_cn_stream) * 1000 <= applied <=
    max_bitrate_kbps (config_ isac_cn_stream) * 1000.
Proof.
  assert (Hbounds : 0 <= min_bitrate_kbps (config_ isac_cn_stream) <=
                    max_bitrate_kbps (config_ isac_cn_stream))
    by (split; discriminate).
  assert (Hfit : max_bitrate_kbps (config_ isac_cn_stream) * 1000 < 2 ^ 31)
    by reflexivity.
  assert (Hmin : min_bitrate_kbps (config_ isac_cn_stream) * 1000 <= 48000)
    by discriminate.
  split; [exact Hbounds|]. split; [exact Hfit|]. split; [exact Hmin|].
  exact (@OnBitrateUpdated_within_bounds _ _ true isac_cn_stream 48000 0 0
           Mock.fresh Hbounds Hfit Hmin).
Defined.

(** An allocation of 8 kbps to a stream whose minimum is 32 kbps. *)
Lemma OnBitrateUpdated_below_minimum_witness :
  8000 < to_uint32 (int_mul (min_bitrate_kbps (config_ isac_cn_stream)) 1000) /\
  OnBitrateUpdated true isac_cn_stream 8000 0 0 Mock.fresh
  = Fatal Mock.fresh [] /\
  bitrate_calls
    (trace_of (OnBitrateUpdated false isac_cn_stream 8000 0 0 Mock.fresh))
  = [8000].
Proof.
  assert (Hlow : 8000 <
            to_uint32 (int_mul (min_bitrate_kbps (config_ isac_cn_stream)) 1000))
    by reflexivity.
  split; [exact Hlow|]. split.
  - exact (proj1 (@OnBitrateUpdated_below_minimum _ _ true isac_cn_stream
                    8000 0 0 Mock.fresh Hlow) eq_refl).
  - exact (proj2 (proj2 (@OnBitrateUpdated_below_minimum _ _ false
                           isac_cn_stream 8000 0 0 Mock.fresh Hlow) eq_refl)).
Defined.

(** Three extensions print with two separators. *)
Lemma Rtp_ToString_joins_extensions_witness :
  Z.of_nat (List.length (extensions (rtp known_extensions_config))) < 2 ^ 64 /\
  Rtp_ToString show_extension show_nack 64 (rtp known_extensions_config) =
  ("{ssrc: 1234, extensions: [{uri: transport-wide-cc, id: 5}, " ++
   "{uri: abs-send-time, id: 3}, {uri: ssrc-audio-level, id: 1}], " ++
   "nack: {rtp_history_ms: 5000}, c_name: stream}")%string.
Proof.
  assert (Hfit : Z.of_nat (List.length
                             (extensions (rtp known_extensions_config)))
                 < 2 ^ 64) by reflexivity.
  split; [exact Hfit|].
  rewrite (Rtp_ToString_joins_extensions show_extension show_nack 64
             (rtp known_extensions_config) Hfit).
  reflexivity.
Defined.

(** The strings the constructor logs for a codec and for a configuration. *)
(** A codec the channel rejects: LastError is asked and the run returns
    false with nothing else done. *)
Example SetupSendCodec_rejected_codec_calls :
  let r := SetupSendCodec true {| config_ := rejected_codec_config |}
             Mock.fresh in
  value_of r = Some false /\
  trace_of r =
  [Call_SetVADStatus 1 false 0; Call_SetFECStatus 1 false 0;
   Call_GetSendCodec 1 (-1) CodecInst_zero;
   Call_SetSendCodec 1 rejected_codec (-1); Call_LastError (-1)].
Proof. split; reflexivity. Qed.

Example ToString_isac : ToString isac = "ISAC/16000/1 (103)"%string.
Proof. reflexivity. Qed.

Example Config_ToString_isac_cn :
  Config_ToString show_extension show_nack 64 (config_ isac_cn_stream) =
  ("{rtp: {ssrc: 1234, extensions: [], nack: {rtp_history_ms: 5000}, " ++
   "c_name: stream}, voe_channel_id: 1, cng_payload_type: 105}")%string.
Proof. reflexivity. Qed.
